(** * dino-budgeter: transaction handlers and frame bookkeeping

    A shallow embedding of [src/server/frames.ts] and of the transaction
    request handlers ([handle_transaction_post], [handle_transaction_delete],
    [handle_transaction_update_post], [handle_transaction_split_post]),
    together with the properties the specification states about them.

    The relational store is a record of tables, each table a list of rows in
    insertion order.  A query is a [filter] over a table, an [order by] a
    stable sort, an [insert] appends a row, an [update] maps over the table.
    Handlers run inside [db.tx]: a handler either resolves with a value and a
    new store, or rejects, in which case the store is rolled back. *)

From Stdlib Require Import ZArith List String Ascii Bool Lia.
From Stdlib Require Import Decimal DecimalString DecimalPos DecimalN Sorted Permutation.
Import ListNotations.

Open Scope string_scope.
Open Scope Z_scope.

(** ** Monetary values *)

(** Modelled from the spec: the class [Money] of [shared/Money] is not among
    the sources.  The specification describes it as a decimal value type with
    string (de)serialization, whose values can fail to be valid and can be
    negative.  Here a value is either not a number, or an amount held in
    hundredths; [string] prints it with two fractional digits and [ofString]
    reads such a string back. *)
Module Money.

Inductive t : Type :=
  | NaN
  | Cents (c : Z).

Definition Zero : t := Cents 0.

Definition plus (a b : t) : t :=
    match a, b with
    | Cents x, Cents y => Cents (x + y)
    | _, _ => NaN
    end.

Definition minus (a b : t) : t :=
    match a, b with
    | Cents x, Cents y => Cents (x - y)
    | _, _ => NaN
    end.

(** [isValid(allowNegative)].  Called without an argument, as in the
    amount update, it lets negative values pass: the handlers hand it [false]
    where they refuse them. *)
Definition isValid (allowNegative : bool) (m : t) : bool :=
    match m with
    | NaN => false
    | Cents c => allowNegative || (0 <=? c)
    end.

(** [Money.sum(ms)]: the values added up from [Zero], left to right. *)
Definition sum (ms : list t) : t := fold_left plus ms Zero.

Definition digits (n : Z) : string :=
    NilZero.string_of_uint (N.to_uint (Z.to_N n)).

Definition two_digits (n : Z) : string :=
    digits (n / 10) ++ digits (n mod 10).

Definition string (m : t) : string :=
    match m with
    | NaN => "NaN"
    | Cents c =>
        (if c <? 0 then "-" else "")
          ++ digits (Z.abs c / 100) ++ "." ++ two_digits (Z.abs c mod 100)
    end.

Fixpoint split_dot (s : String.string) : String.string * option String.string :=
    match s with
    | EmptyString => (EmptyString, None)
    | String c rest =>
        if Ascii.eqb c "."%char then (EmptyString, Some rest)
        else let '(whole, frac) := split_dot rest in (String c whole, frac)
    end.

Definition natural (s : String.string) : option Z :=
    match s with
    | EmptyString => None
    | _ => option_map (fun d => Z.of_N (N.of_uint d)) (NilEmpty.uint_of_string s)
    end.

Definition hundredths (frac : option String.string) : option Z :=
    match frac with
    | None => Some 0
    | Some f =>
        match String.length f with
        | 1%nat => option_map (fun d => 10 * d) (natural f)
        | 2%nat => natural f
        | _ => None
        end
    end.

Definition magnitude (s : String.string) : option Z :=
    let '(whole, frac) := split_dot s in
    match natural whole, hundredths frac with
    | Some w, Some h => Some (100 * w + h)
    | _, _ => None
    end.

Definition signed (negative : bool) (m : option Z) : t :=
  match m with
  | Some c => Cents (if negative then - c else c)
  | None => NaN
  end.

(** [new Money(s)] for a string [s] *)
Definition ofString (s : String.string) : t :=
  match s with
  | EmptyString => NaN
  | String c rest =>
      if Ascii.eqb c "-"%char then signed true (magnitude rest)
      else signed false (magnitude s)
  end.

(** [new Money(v)] for a column value: SQL [NULL] is not a number. *)
Definition ofColumn (v : option String.string) : t :=
    match v with
    | Some s => ofString s
    | None => NaN
    end.

End Money.

Notation Money := Money.t.

(** Modelled from the spec: [distributeTotal] of [shared/transactions] is not
    among the sources.  The specification says that it distributes the two
    shares over the total: the split's two amounts follow the share ratio, and
    they partition the total.  The first amount is the total scaled by
    [myShare / (myShare + theirShare)], rounded down to a hundredth; the
    second amount is what is left of the total.  The specification does not
    say what happens when both shares are zero: here the first amount is then
    zero. *)
Definition distributeTotal (total myShare theirShare : Money) : Money * Money :=
  match total, myShare, theirShare with
  | Money.Cents t, Money.Cents m, Money.Cents s =>
      let myAmount := Money.Cents (t * m / (m + s)) in
      (myAmount, Money.minus total myAmount)
  | _, _, _ => (Money.NaN, Money.NaN)
  end.

(** ** The store *)

(** Identifiers (transaction, group, user, category and split ids) are
    strings; a frame index is a number. *)
Definition Id := String.string.
Definition FrameIndex := Z.
Definition StatusCodeNoResponse := Z.

(** JavaScript truthiness of a string: every string but the empty one. *)
Definition truthy (s : String.string) : bool := negb (s =? "")%string.

(** [x || null] for an optional string. *)
Definition or_null (x : option String.string) : option String.string :=
  match x with
  | Some s => if truthy s then Some s else None
  | None => None
  end.

(** A row of [transactions].  The four columns that the generic update
    statement ["update transactions set " + field + " = $1"] can write hold
    what the driver is handed: a text or [NULL]. *)
Record TransactionRow : Type := mkTransactionRow {
  tr_id : Id;
  tr_gid : Id;
  tr_frame : FrameIndex;
  tr_amount : option String.string;
  tr_description : option String.string;
  tr_category : option String.string;
  tr_date : option String.string;
  tr_alive : bool
}.

Record SharedTransactionRow : Type := mkSharedTransactionRow {
  st_id : Id;
  st_payer : option Id;
  st_settled : bool
}.

Record TransactionSplitRow : Type := mkTransactionSplitRow {
  ts_tid : Id;
  ts_sid : Id;
  ts_share : String.string
}.

Record FrameRow : Type := mkFrameRow {
  fr_gid : Id;
  fr_index : FrameIndex;
  fr_income : String.string;
  fr_ghost : bool
}.

Record CategoryRow : Type := mkCategoryRow {
  cr_id : Id;
  cr_gid : Id;
  cr_frame : FrameIndex;
  cr_name : String.string;
  cr_ordering : Z;
  cr_budget : String.string;
  cr_ghost : bool;
  cr_alive : bool
}.

(** Modelled from the spec: the tables behind [../user] and [../payments] are
    not among the sources.  The specification speaks of users that belong to
    a default group, of friendship edges, and of a signed running balance
    between two friends. *)
Record FriendshipRow : Type := mkFriendshipRow {
  fs_uid : Id;
  fs_friend : Id;
  fs_balance : String.string
}.

Record Db : Type := mkDb {
  transactions : list TransactionRow;
  shared_transactions : list SharedTransactionRow;
  transaction_splits : list TransactionSplitRow;
  frames : list FrameRow;
  categories : list CategoryRow;
  membership : list (Id * Id);
  friendship : list FriendshipRow
}.

Definition with_transactions (f : list TransactionRow -> list TransactionRow) (db : Db) : Db :=
  mkDb (f (transactions db)) (shared_transactions db) (transaction_splits db)
       (frames db) (categories db) (membership db) (friendship db).

Definition with_shared_transactions
    (f : list SharedTransactionRow -> list SharedTransactionRow) (db : Db) : Db :=
  mkDb (transactions db) (f (shared_transactions db)) (transaction_splits db)
       (frames db) (categories db) (membership db) (friendship db).

Definition with_transaction_splits
    (f : list TransactionSplitRow -> list TransactionSplitRow) (db : Db) : Db :=
  mkDb (transactions db) (shared_transactions db) (f (transaction_splits db))
       (frames db) (categories db) (membership db) (friendship db).

Definition with_frames (f : list FrameRow -> list FrameRow) (db : Db) : Db :=
  mkDb (transactions db) (shared_transactions db) (transaction_splits db)
       (f (frames db)) (categories db) (membership db) (friendship db).

Definition with_categories (f : list CategoryRow -> list CategoryRow) (db : Db) : Db :=
  mkDb (transactions db) (shared_transactions db) (transaction_splits db)
       (frames db) (f (categories db)) (membership db) (friendship db).

Definition with_friendship (f : list FriendshipRow -> list FriendshipRow) (db : Db) : Db :=
  mkDb (transactions db) (shared_transactions db) (transaction_splits db)
       (frames db) (categories db) (membership db) (f (friendship db)).

(** *** Statements *)

Section Statements.
Context {A : Type}.

(** [insert into T values r] *)
Definition insert_row (r : A) (table : list A) : list A := table ++ [r].

(** [update T set ... where p] *)
Definition update_where (p : A -> bool) (f : A -> A) (table : list A) : list A :=
    map (fun r => if p r then f r else r) table.

(** [delete from T where p] *)
Definition delete_where (p : A -> bool) (table : list A) : list A :=
    filter (fun r => negb (p r)) table.

(** [select ... from T where p] *)
Definition select_where (p : A -> bool) (table : list A) : list A :=
    filter p table.

(** [order by key asc], keeping rows of equal key in table order. *)
Fixpoint insert_by (key : A -> Z) (x : A) (l : list A) : list A :=
    match l with
    | [] => [x]
    | y :: l' => if key x <=? key y then x :: l else y :: insert_by key x l'
    end.

Definition order_by (key : A -> Z) (l : list A) : list A :=
    fold_right (insert_by key) [] l.

(** Two rows in the order of their keys. *)
Definition key_le (key : A -> Z) (a b : A) : Prop := key a <= key b.

(** [order by key desc] *)
Definition order_by_desc (key : A -> Z) (l : list A) : list A :=
    order_by (fun r => - key r) l.

(** [limit 1] *)
Definition limit_1 (l : list A) : list A := firstn 1 l.

(** [t.oneOrNone]: no row is [null], one row is that row, and the promise
      rejects on more than one row. *)
Definition oneOrNone (rows : list A) : option (option A) :=
    match rows with
    | [] => Some None
    | [r] => Some (Some r)
    | _ => None
    end.
End Statements.

(** The outcome of a handler: the promise resolves with a value and [db.tx]
    commits the store, or it rejects and the store is rolled back. *)
Inductive Outcome (A : Type) : Type :=
| Resolved (value : A) (db' : Db)
| Rejected.
Arguments Resolved {A} value db'.
Arguments Rejected {A}.

Definition committed {A : Type} (db : Db) (o : Outcome A) : Db :=
  match o with
  | Resolved _ db' => db'
  | Rejected => db
  end.

(** ** Objects *)

Record User : Type := mkUser { uid : Id }.

Record Friend : Type := mkFriend { friend_uid : Id; friend_gid : Id }.

Record Split : Type := mkSplit {
  split_id : Id;
  split_with : Friend;
  split_settled : bool;
  split_myShare : Money;
  split_theirShare : Money;
  split_otherAmount : Money;
  split_payer : option Id
}.

Record Transaction : Type := mkTransaction {
  t_id : Id;
  t_gid : Id;
  t_frame : FrameIndex;
  t_category : option Id;
  t_amount : Money;
  t_description : String.string;
  t_alive : bool;
  t_date : String.string;
  t_split : option Split
}.

Record Category : Type := mkCategory {
  c_name : String.string;
  c_gid : Id;
  c_frame : FrameIndex;
  c_alive : bool;
  c_id : Id;
  c_ghost : bool;
  c_ordering : Z;
  c_budget : Money;
  c_balance : Money
}.

Record Frame : Type := mkFrame {
  f_gid : Id;
  f_index : FrameIndex;
  f_balance : Money;
  f_income : Money;
  f_ghost : bool;
  f_spending : Money;
  f_categories : list Category
}.

(** *** Requests *)

Record SplitRequest : Type := mkSplitRequest {
  sr_with : Id;
  sr_iPaid : bool;
  sr_otherAmount : Money;
  sr_myShare : Money;
  sr_theirShare : Money
}.

Record AddTransactionRequest : Type := mkAddTransactionRequest {
  atr_frame : FrameIndex;
  atr_amount : Money;
  atr_description : String.string;
  atr_category : option Id;
  atr_date : String.string;
  atr_split : option SplitRequest
}.

Record DeleteTransactionRequest : Type := mkDeleteTransactionRequest {
  dtr_id : Id
}.

Record TransactionDescriptionRequest : Type := mkTransactionDescriptionRequest {
  tdr_id : Id;
  tdr_description : String.string
}.

Record TransactionAmountRequest : Type := mkTransactionAmountRequest {
  tar_id : Id;
  tar_amount : Money
}.

Record TransactionDateRequest : Type := mkTransactionDateRequest {
  tdt_id : Id;
  tdt_date : String.string
}.


Record TransactionSplitRequest : Type := mkTransactionSplitRequest {
  tsr_tid : Id;
  tsr_sid : Id;
  tsr_total : Money;
  tsr_myShare : Money;
  tsr_theirShare : Money;
  tsr_iPaid : bool
}.

(** ** The modules the handlers import *)

(** The modules [../user], [../transactions], [../payments], [./categories]
    and [../../shared/util] are not among the sources: what the handlers call
    in them is an interface here, and every theorem about a handler holds for
    each implementation of it.  A query of the interface reads the store, a
    statement of it returns the new store; their promises are taken to
    resolve, as their types say.  [getTransaction] answers [None] where the
    handler would find no transaction to read a field from.
    [randomId n] is the [n]-th identifier that [util.randomId()] hands out
    during one request. *)
Class Backend : Type := mkBackend {
  isFriend : Id -> Id -> Db -> bool;
  getDefaultGroup : User -> Db -> Id;
  getFriend : Id -> Db -> Friend;
  transactions_getBalance : Id -> Id -> Money -> Money -> option Id -> Money;
  canUserEdit : Id -> Id -> Db -> bool;
  deleteTransaction : Id -> Db -> Db;
  getTransaction : Id -> Db -> option Transaction;
  getOtherTid : Id -> Id -> Db -> Id;
  getUser : Id -> Db -> Id;
  getBalanceFromDb : Id -> Db -> Money;
  addToBalance : Id -> Id -> Money -> Db -> Db;
  categories_getSpending : Id -> FrameIndex -> Db -> Money;
  DEFAULT_CATEGORIES : list String.string;
  randomId : nat -> Id
}.

(** Modelled from the spec: [categories.fromSerialized] is not among the
    sources.  It turns a row of [categories] into a category object, the
    budget read as a monetary value; the balance is attached by the caller. *)
Definition categories_fromSerialized (row : CategoryRow) : Category :=
  {| c_name := cr_name row;
     c_gid := cr_gid row;
     c_frame := cr_frame row;
     c_alive := cr_alive row;
     c_id := cr_id row;
     c_ghost := cr_ghost row;
     c_ordering := cr_ordering row;
     c_budget := Money.ofString (cr_budget row);
     c_balance := Money.Zero |}.

(** Modelled from the spec: [shared.fromSerialized] of [shared/frames] is not
    among the sources.  It turns a row of [frames] into a frame object, the
    income read as a monetary value, and hands [null] through; balance,
    spending and categories are attached by the caller. *)
Definition frame_of_row (r : FrameRow) : Frame :=
  {| f_gid := fr_gid r;
     f_index := fr_index r;
     f_balance := Money.Zero;
     f_income := Money.ofString (fr_income r);
     f_ghost := fr_ghost r;
     f_spending := Money.Zero;
     f_categories := [] |}.

Definition shared_fromSerialized (row : option FrameRow) : option Frame :=
  option_map frame_of_row row.

(** Assignments to the fields of an object. *)
Definition set_c_balance (b : Money) (c : Category) : Category :=
  mkCategory (c_name c) (c_gid c) (c_frame c) (c_alive c) (c_id c) (c_ghost c)
             (c_ordering c) (c_budget c) b.

Definition set_c_frame (i : FrameIndex) (c : Category) : Category :=
  mkCategory (c_name c) (c_gid c) i (c_alive c) (c_id c) (c_ghost c)
             (c_ordering c) (c_budget c) (c_balance c).

Definition set_f_categories (cs : list Category) (f : Frame) : Frame :=
  mkFrame (f_gid f) (f_index f) (f_balance f) (f_income f) (f_ghost f) (f_spending f) cs.

Definition set_f_balance (b : Money) (f : Frame) : Frame :=
  mkFrame (f_gid f) (f_index f) b (f_income f) (f_ghost f) (f_spending f) (f_categories f).

Definition set_f_spending (m : Money) (f : Frame) : Frame :=
  mkFrame (f_gid f) (f_index f) (f_balance f) (f_income f) (f_ghost f) m (f_categories f).

Definition set_f_income (m : Money) (f : Frame) : Frame :=
  mkFrame (f_gid f) (f_index f) (f_balance f) m (f_ghost f) (f_spending f) (f_categories f).

(** ** [src/server/frames.ts] *)

Section Frames.
Context {B : Backend}.

(** [getIncome]: the income of the one frame row, no row counting as zero. *)
Definition getIncome (gid : Id) (index : FrameIndex) (db : Db) : option Money :=
  match oneOrNone (select_where
           (fun r => (fr_gid r =? gid)%string && (fr_index r =? index)) (frames db)) with
  | Some (Some row) => Some (Money.ofString (fr_income row))
  | Some None => Some Money.Zero
  | None => None
  end.

(** [t.manyOrNone] resolves with the rows selected; where the source guards
    against no rows with [rows ? ... : Money.Zero], the sum of no rows is
    [Money.Zero] as well. *)
Definition getBalance (gid : Id) (index : FrameIndex) (db : Db) : Money :=
  let rows := select_where
      (fun r => (tr_gid r =? gid)%string && (tr_frame r <=? index) && tr_alive r)
      (transactions db) in
  let totalSpent := Money.sum (map (fun r => Money.ofColumn (tr_amount r)) rows) in
  let rows := select_where
      (fun r => (fr_gid r =? gid)%string && (fr_index r <=? index)) (frames db) in
  let totalIncome := Money.sum (map (fun r => Money.ofString (fr_income r)) rows) in
  Money.minus totalIncome totalSpent.

Definition getSpending (gid : Id) (frame : FrameIndex) (db : Db) : Money :=
  let rows := select_where
      (fun r => (tr_gid r =? gid)%string && (tr_frame r =? frame) && tr_alive r)
      (transactions db) in
  Money.sum (map (fun r => Money.ofColumn (tr_amount r)) rows).

Definition getCategories (gid : Id) (frame : FrameIndex) (db : Db) : list Category :=
  let rows := order_by cr_ordering
      (select_where
         (fun r => (cr_gid r =? gid)%string && (cr_frame r =? frame) && cr_alive r)
         (categories db)) in
  map (fun row =>
         let category := categories_fromSerialized row in
         set_c_balance
           (Money.minus (c_budget category) (categories_getSpending (c_id category) frame db))
           category)
      rows.

(** A category object with the balance that [getCategories] attaches for a
    frame. *)
Definition with_frame_balance (frame : FrameIndex) (db : Db) (row : CategoryRow) : Category :=
  set_c_balance
    (Money.minus (c_budget (categories_fromSerialized row))
                 (categories_getSpending (cr_id row) frame db))
    (categories_fromSerialized row).

Definition getPreviousFrame (gid : Id) (index : FrameIndex) (db : Db) : option Frame :=
  let row := hd_error (limit_1 (order_by_desc fr_index
      (select_where (fun r => (fr_gid r =? gid)%string && (fr_index r <? index)) (frames db)))) in
  shared_fromSerialized row.

Definition deleteGhost (gid : Id) (index : FrameIndex) (db : Db) : Db :=
  let db := with_categories (delete_where
      (fun r => (cr_gid r =? gid)%string && (cr_frame r =? index) && cr_ghost r)) db in
  with_frames (delete_where
      (fun r => (fr_gid r =? gid)%string && (fr_index r =? index) && fr_ghost r)) db.

Definition markNotGhost (gid : Id) (index : FrameIndex) (db : Db) : Db :=
  let db := with_frames (update_where
      (fun r => (fr_gid r =? gid)%string && (fr_index r =? index))
      (fun r => mkFrameRow (fr_gid r) (fr_index r) (fr_income r) false)) db in
  with_categories (update_where
      (fun r => (cr_gid r =? gid)%string && (cr_frame r =? index))
      (fun r => mkCategoryRow (cr_id r) (cr_gid r) (cr_frame r) (cr_name r)
                              (cr_ordering r) (cr_budget r) false (cr_alive r))) db.

(** The categories of a frame that has no predecessor: one for each default
    name, the [i]-th with ordering [i] and the [i]-th random identifier. *)
Fixpoint default_categories (gid : Id) (index : FrameIndex) (db : Db)
    (i : nat) (names : list String.string) : list Category :=
  match names with
  | [] => []
  | c :: names' =>
      let id := randomId i in
      {| c_name := c;
         c_gid := gid;
         c_frame := index;
         c_alive := true;
         c_id := id;
         c_ghost := true;
         c_ordering := Z.of_nat i;
         c_budget := Money.Zero;
         c_balance := Money.minus Money.Zero (categories_getSpending id index db) |}
        :: default_categories gid index db (S i) names'
  end.

(** The row that the statement [insert into categories (id, gid, frame, name,
    ordering, budget, ghost) values (..., true)] adds; the column [alive],
    which the statement leaves out, takes its default. *)
Definition category_row (c : Category) : CategoryRow :=
  mkCategoryRow (c_id c) (c_gid c) (c_frame c) (c_name c) (c_ordering c)
                (Money.string (c_budget c)) true true.

Definition getOrCreateFrameInner (gid : Id) (index : FrameIndex) (db : Db) : Outcome Frame :=
  match oneOrNone (select_where
           (fun r => (fr_gid r =? gid)%string && (fr_index r =? index) && negb (fr_ghost r))
           (frames db)) with
  | None => Rejected
  | Some (Some row) =>
      let frame := frame_of_row row in
      let frame := set_f_categories (getCategories gid index db) frame in
      let frame := set_f_balance (getBalance gid index db) frame in
      let frame := set_f_spending (getSpending gid index db) frame in
      Resolved frame db
  | Some None =>
      (* Delete any ghost if it exists *)
      let db := deleteGhost gid index db in
      (* [spending] and [categories], not yet set in the source, are assigned below *)
      let frame := mkFrame gid index Money.Zero Money.Zero true Money.Zero [] in
      let frame := set_f_spending (getSpending gid index db) frame in
      let frame := set_f_balance (getBalance gid index db) frame in
      let frame :=
        match getPreviousFrame gid index db with
        | Some prevFrame =>
            let frame := set_f_income (f_income prevFrame) frame in
            let frame := set_f_categories
                (map (set_c_frame (f_index frame)) (getCategories gid (f_index prevFrame) db))
                frame in
            set_f_balance (Money.plus (f_balance frame) (f_income frame)) frame
        | None =>
            set_f_categories (default_categories gid index db 0 DEFAULT_CATEGORIES) frame
        end in
      (* Save the new frame and categories *)
      let db := with_frames (insert_row
          (mkFrameRow (f_gid frame) (f_index frame) (Money.string (f_income frame)) true)) db in
      let db := with_categories
          (fun table => fold_left (fun table c => insert_row (category_row c) table)
                                  (f_categories frame) table) db in
      Resolved frame db
  end.

Definition getOrCreateFrame (gid : Id) (index : FrameIndex) (db : Db) : Outcome Frame :=
  getOrCreateFrameInner gid index db.

End Frames.

(** ** The transaction handlers *)

Inductive txField : Type :=
| field_amount
| field_date
| field_description
| field_category.

Definition isSharedField (field : txField) : bool :=
  match field with
  | field_date | field_description => true
  | _ => false
  end.

Definition canEditShared (field : txField) : bool :=
  match field with
  | field_amount => false
  | _ => true
  end.

(** ["update transactions set " + field + " = $1 where id = $2"] *)
Definition set_field (field : txField) (val : option String.string)
    (r : TransactionRow) : TransactionRow :=
  match field with
  | field_amount =>
      mkTransactionRow (tr_id r) (tr_gid r) (tr_frame r) val (tr_description r)
                       (tr_category r) (tr_date r) (tr_alive r)
  | field_date =>
      mkTransactionRow (tr_id r) (tr_gid r) (tr_frame r) (tr_amount r) (tr_description r)
                       (tr_category r) val (tr_alive r)
  | field_description =>
      mkTransactionRow (tr_id r) (tr_gid r) (tr_frame r) (tr_amount r) val
                       (tr_category r) (tr_date r) (tr_alive r)
  | field_category =>
      mkTransactionRow (tr_id r) (tr_gid r) (tr_frame r) (tr_amount r) (tr_description r)
                       val (tr_date r) (tr_alive r)
  end.

Definition get_field (field : txField) (r : TransactionRow) : option String.string :=
  match field with
  | field_amount => tr_amount r
  | field_date => tr_date r
  | field_description => tr_description r
  | field_category => tr_category r
  end.

Definition update_transaction_field (field : txField) (val : option String.string)
    (id : Id) (db : Db) : Db :=
  with_transactions
    (update_where (fun r => (tr_id r =? id)%string) (set_field field val)) db.

Definition is_some {A : Type} (o : option A) : bool :=
  match o with
  | Some _ => true
  | None => false
  end.

(** The validation of the split of an [AddTransactionRequest]: [true] when
    the handler answers 400 because of it. *)
Definition split_rejected (request : AddTransactionRequest) : bool :=
  match atr_split request with
  | Some split =>
      if negb (Money.isValid false (sr_otherAmount split))
         || negb (Money.isValid false (sr_myShare split))
         || negb (Money.isValid false (sr_theirShare split))
      then true
      else
        let total := Money.plus (atr_amount request) (sr_otherAmount split) in
        let '(calcAmount, calcOtherAmount) :=
          distributeTotal total (sr_myShare split) (sr_theirShare split) in
        negb (Money.string calcAmount =? Money.string (atr_amount request))%string
        || negb (Money.string calcOtherAmount =? Money.string (sr_otherAmount split))%string
  | None => false
  end.

Section Handlers.
Context {B : Backend}.

(** The row that the statement [insert into transactions (id, gid, frame,
    amount, description, category, date)] adds; the column [alive], which the
    statement leaves out, takes its default. *)
Definition transaction_row (id gid : Id) (frame : FrameIndex) (amount description : String.string)
    (category : option Id) (date : String.string) : TransactionRow :=
  mkTransactionRow id gid frame (Some amount) (Some description) category (Some date) true.

Definition handle_transaction_post (request : AddTransactionRequest) (actor : User) (db : Db)
    : Outcome (Transaction + StatusCodeNoResponse) :=
  let other := option_map sr_with (atr_split request) in
  let payer :=
    match atr_split request with
    | Some split => if sr_iPaid split then Some (uid actor) else other
    | None => None
    end in
  if negb (Money.isValid false (atr_amount request)) then Resolved (inr 400) db
  else if split_rejected request then Resolved (inr 400) db
  else
    let tx_id := randomId 0 in
    let insert (db : Db) :=
      let gid := getDefaultGroup actor db in
      (gid,
       with_transactions (insert_row
         (transaction_row tx_id gid (atr_frame request) (Money.string (atr_amount request))
            (atr_description request) (or_null (atr_category request)) (atr_date request))) db) in
    let transaction (gid : Id) (split : option Split) :=
      {| t_id := tx_id;
         t_gid := gid;
         t_frame := atr_frame request;
         t_category := atr_category request;
         t_amount := atr_amount request;
         t_description := atr_description request;
         t_alive := true;
         t_date := atr_date request;
         t_split := split |} in
    match atr_split request with
    | Some rsplit =>
        let other := sr_with rsplit in
        if truthy other then
          if negb (isFriend (uid actor) other db) then Resolved (inr 400) db
          else
            let '(gid, db) := insert db in
            let other_id := randomId 1 in
            let other_friend := getFriend other db in
            let other_gid := friend_gid other_friend in
            let other_cat : option Id := None in
            let sid := randomId 2 in
            let split :=
              {| split_id := sid;
                 split_with := other_friend;
                 split_settled := false;
                 split_myShare := sr_myShare rsplit;
                 split_theirShare := sr_theirShare rsplit;
                 split_otherAmount := sr_otherAmount rsplit;
                 split_payer := payer |} in
            let balance :=
              transactions_getBalance (uid actor) other (atr_amount request)
                                      (sr_otherAmount rsplit) payer in
            let db := addToBalance (uid actor) other balance db in
            let db := with_transactions (insert_row
                (transaction_row other_id other_gid (atr_frame request)
                   (Money.string (sr_otherAmount rsplit)) (atr_description request)
                   other_cat (atr_date request))) db in
            let db := with_shared_transactions (insert_row
                (mkSharedTransactionRow sid payer true)) db in
            let db := with_transaction_splits (insert_row
                (mkTransactionSplitRow tx_id sid (Money.string (sr_myShare rsplit)))) db in
            let db := with_transaction_splits (insert_row
                (mkTransactionSplitRow other_id sid (Money.string (sr_theirShare rsplit)))) db in
            Resolved (inl (transaction gid (Some split))) db
        else
          let '(gid, db) := insert db in
          Resolved (inl (transaction gid None)) db
    | None =>
        let '(gid, db) := insert db in
        Resolved (inl (transaction gid None)) db
    end.

Definition handle_transaction_delete (request : DeleteTransactionRequest) (actor : User)
    (db : Db) : Outcome StatusCodeNoResponse :=
  if negb (canUserEdit (dtr_id request) (uid actor) db) then
    (* Maybe no auth? maybe no exists? maybe no id at all? *)
    Resolved 400 db
  else
    let db := deleteTransaction (dtr_id request) db in
    Resolved 204 db.

(** The generic update.  [as_string value] is [Some s] when
    [typeof value == "string"] and the value is [s].  Where the source
    throws for want of a transform, the outcome is [Rejected]. *)
Definition handle_transaction_update_post {V : Type} (as_string : V -> option String.string)
    (field : txField) (id : Id) (value : V) (actor : User)
    (isValid : option (V -> bool)) (transform : option (V -> option String.string))
    (db : Db) : Outcome StatusCodeNoResponse :=
  let isValid := match isValid with Some f => f | None => fun _ => true end in
  let transform :=
    match transform with
    | Some f => Some f
    | None =>
        match as_string value with
        | Some _ => Some as_string
        | None => None
        end
    end in
  match transform with
  | None => Rejected
  | Some transform =>
      if negb (isValid value) then Resolved 400 db
      else
        let updateLinked := isSharedField field in
        match getTransaction id db with
        | None => Rejected
        | Some existing =>
            if negb (t_gid existing =? getDefaultGroup actor db)%string then Resolved 401 db
            else if is_some (t_split existing) && negb (canEditShared field) then
              Resolved 400 db
            else
              let val := transform value in
              let db := update_transaction_field field val id db in
              let db :=
                match t_split existing with
                | Some split =>
                    if updateLinked then
                      update_transaction_field field val
                        (getOtherTid id (split_id split) db) db
                    else db
                | None => db
                end in
              Resolved 204 db
        end
  end.

Definition handle_transaction_description_post (request : TransactionDescriptionRequest)
    (actor : User) (db : Db) : Outcome StatusCodeNoResponse :=
  handle_transaction_update_post (fun s => Some s) field_description
    (tdr_id request) (tdr_description request) actor (Some truthy) None db.

Definition handle_transaction_amount_post (request : TransactionAmountRequest)
    (actor : User) (db : Db) : Outcome StatusCodeNoResponse :=
  handle_transaction_update_post (fun _ => None) field_amount
    (tar_id request) (tar_amount request) actor
    (Some (Money.isValid true))
    (Some (fun amount => Some (Money.string amount))) db.

Definition handle_transaction_date_post (request : TransactionDateRequest)
    (actor : User) (db : Db) : Outcome StatusCodeNoResponse :=
  handle_transaction_update_post (fun s => Some s) field_date
    (tdt_id request) (tdt_date request) actor None None db.


Definition handle_transaction_split_post (request : TransactionSplitRequest) (actor : User)
    (db : Db) : Outcome StatusCodeNoResponse :=
  let tid := tsr_tid request in
  let sid := tsr_sid request in
  let total := tsr_total request in
  let myShare := tsr_myShare request in
  let theirShare := tsr_theirShare request in
  if negb (Money.isValid false total)
     || negb (Money.isValid false myShare)
     || negb (Money.isValid false theirShare)
     || negb (truthy tid) || negb (truthy sid)
  then Resolved 400 db
  else
    let '(myAmount, otherAmount) := distributeTotal total myShare theirShare in
    let otherTid := getOtherTid tid sid db in
    let otherUid := getUser otherTid db in
    let payer := if tsr_iPaid request then uid actor else otherUid in
    (* Update the friendship balance *)
    let prevBalance := getBalanceFromDb tid db in
    let newBalance :=
      transactions_getBalance (uid actor) otherUid myAmount otherAmount (Some payer) in
    let balanceDelta := Money.minus newBalance prevBalance in
    let db := addToBalance (uid actor) otherUid balanceDelta db in
    let db := update_transaction_field field_amount (Some (Money.string myAmount)) tid db in
    let db := update_transaction_field field_amount (Some (Money.string otherAmount)) otherTid db in
    let db := with_transaction_splits (update_where (fun r => (ts_tid r =? tid)%string)
                (fun r => mkTransactionSplitRow (ts_tid r) (ts_sid r) (Money.string myShare))) db in
    let db := with_transaction_splits (update_where (fun r => (ts_tid r =? otherTid)%string)
                (fun r => mkTransactionSplitRow (ts_tid r) (ts_sid r) (Money.string theirShare))) db in
    let db := with_shared_transactions (update_where (fun r => (st_id r =? sid)%string)
                (fun r => mkSharedTransactionRow (st_id r) (Some payer) (st_settled r))) db in
    Resolved 204 db.

End Handlers.

(** ** An implementation of the imported modules *)

(** Modelled from the spec: one implementation of what [../user],
    [../transactions], [../payments], [./categories] and [util] provide, which
    are not among the sources.  A user edits the transactions of their
    default group; deleting a transaction clears its [alive] flag; the two
    transactions of a split are the two rows of [transaction_splits] with the
    split's id; the balance between two friends is what the one who did not
    pay owes the payer; the spending of a category in a frame is the sum of
    the alive transactions filed under it in that frame. *)
Definition model_isFriend (u other : Id) (db : Db) : bool :=
  existsb (fun r => ((fs_uid r =? u)%string && (fs_friend r =? other)%string)
                    || ((fs_uid r =? other)%string && (fs_friend r =? u)%string))
          (friendship db).

Definition model_getDefaultGroup (actor : User) (db : Db) : Id :=
  match find (fun m => (fst m =? uid actor)%string) (membership db) with
  | Some m => snd m
  | None => ""
  end.

Definition model_getFriend (u : Id) (db : Db) : Friend :=
  mkFriend u (model_getDefaultGroup (mkUser u) db).

Definition model_getBalance (user otherUser : Id) (amount otherAmount : Money)
    (payer : option Id) : Money :=
  match payer with
  | Some p => if (p =? user)%string then otherAmount else Money.minus Money.Zero amount
  | None => Money.Zero
  end.

Definition model_canUserEdit (id u : Id) (db : Db) : bool :=
  existsb (fun r => (tr_id r =? id)%string
                    && (tr_gid r =? model_getDefaultGroup (mkUser u) db)%string)
          (transactions db).

Definition model_deleteTransaction (id : Id) (db : Db) : Db :=
  with_transactions
    (update_where (fun r => (tr_id r =? id)%string)
       (fun r => mkTransactionRow (tr_id r) (tr_gid r) (tr_frame r) (tr_amount r)
                   (tr_description r) (tr_category r) (tr_date r) false)) db.

Definition model_getOtherTid (tid sid : Id) (db : Db) : Id :=
  match find (fun r => (ts_sid r =? sid)%string && negb (ts_tid r =? tid)%string)
             (transaction_splits db) with
  | Some r => ts_tid r
  | None => ""
  end.

Definition model_getUser (tid : Id) (db : Db) : Id :=
  match find (fun r => (tr_id r =? tid)%string) (transactions db) with
  | Some r =>
      match find (fun m => (snd m =? tr_gid r)%string) (membership db) with
      | Some m => fst m
      | None => ""
      end
  | None => ""
  end.

Definition text (v : option String.string) : String.string :=
  match v with
  | Some s => s
  | None => ""
  end.

Definition model_getSplit (id : Id) (db : Db) : option Split :=
  match find (fun r => (ts_tid r =? id)%string) (transaction_splits db) with
  | Some mine =>
      let sid := ts_sid mine in
      let otherTid := model_getOtherTid id sid db in
      match find (fun r => (st_id r =? sid)%string) (shared_transactions db),
            find (fun r => (ts_tid r =? otherTid)%string) (transaction_splits db),
            find (fun r => (tr_id r =? otherTid)%string) (transactions db) with
      | Some shared, Some theirs, Some otherTx =>
          Some {| split_id := sid;
                  split_with := model_getFriend (model_getUser otherTid db) db;
                  split_settled := st_settled shared;
                  split_myShare := Money.ofString (ts_share mine);
                  split_theirShare := Money.ofString (ts_share theirs);
                  split_otherAmount := Money.ofColumn (tr_amount otherTx);
                  split_payer := st_payer shared |}
      | _, _, _ => None
      end
  | None => None
  end.

Definition model_getTransaction (id : Id) (db : Db) : option Transaction :=
  match find (fun r => (tr_id r =? id)%string) (transactions db) with
  | Some r =>
      Some {| t_id := tr_id r;
              t_gid := tr_gid r;
              t_frame := tr_frame r;
              t_category := tr_category r;
              t_amount := Money.ofColumn (tr_amount r);
              t_description := text (tr_description r);
              t_alive := tr_alive r;
              t_date := text (tr_date r);
              t_split := model_getSplit id db |}
  | None => None
  end.

Definition model_getBalanceFromDb (tid : Id) (db : Db) : Money :=
  match model_getTransaction tid db with
  | Some tx =>
      match t_split tx with
      | Some split =>
          model_getBalance (model_getUser tid db) (friend_uid (split_with split))
                           (t_amount tx) (split_otherAmount split) (split_payer split)
      | None => Money.Zero
      end
  | None => Money.Zero
  end.

Definition model_addToBalance (u other : Id) (amount : Money) (db : Db) : Db :=
  with_friendship
    (map (fun r =>
            if (fs_uid r =? u)%string && (fs_friend r =? other)%string then
              mkFriendshipRow (fs_uid r) (fs_friend r)
                (Money.string (Money.plus (Money.ofString (fs_balance r)) amount))
            else if (fs_uid r =? other)%string && (fs_friend r =? u)%string then
              mkFriendshipRow (fs_uid r) (fs_friend r)
                (Money.string (Money.minus (Money.ofString (fs_balance r)) amount))
            else r)) db.

Definition model_categories_getSpending (id : Id) (frame : FrameIndex) (db : Db) : Money :=
  Money.sum (map (fun r => Money.ofColumn (tr_amount r))
    (select_where
       (fun r => match tr_category r with
                 | Some c => (c =? id)%string
                 | None => false
                 end && (tr_frame r =? frame) && tr_alive r)
       (transactions db))).

Definition model_randomId (n : nat) : Id :=
  "id" ++ Money.digits (Z.of_nat n).

Definition model : Backend :=
  {| isFriend := model_isFriend;
     getDefaultGroup := model_getDefaultGroup;
     getFriend := model_getFriend;
     transactions_getBalance := model_getBalance;
     canUserEdit := model_canUserEdit;
     deleteTransaction := model_deleteTransaction;
     getTransaction := model_getTransaction;
     getOtherTid := model_getOtherTid;
     getUser := model_getUser;
     getBalanceFromDb := model_getBalanceFromDb;
     addToBalance := model_addToBalance;
     categories_getSpending := model_categories_getSpending;
     DEFAULT_CATEGORIES := ["Rent"; "Groceries"; "Savings"];
     randomId := model_randomId |}.

(** ** The specification's reading of the frame balance *)

(** The cumulative income of a group through a frame index, in the
    specification's words: the income of every frame of the group whose index
    is at most the given one, added up row by row. *)
Fixpoint cumulative_income (gid : Id) (index : FrameIndex) (rows : list FrameRow) : Money :=
  match rows with
  | [] => Money.Zero
  | r :: rows' =>
      if (fr_gid r =? gid)%string && (fr_index r <=? index)
      then Money.plus (Money.ofString (fr_income r)) (cumulative_income gid index rows')
      else cumulative_income gid index rows'
  end.

(** The cumulative alive spending of a group through a frame index: the
    amount of every alive transaction of the group whose frame is at most the
    given index. *)
Fixpoint cumulative_spending (gid : Id) (index : FrameIndex) (rows : list TransactionRow)
    : Money :=
  match rows with
  | [] => Money.Zero
  | r :: rows' =>
      if (tr_gid r =? gid)%string && (tr_frame r <=? index) && tr_alive r
      then Money.plus (Money.ofColumn (tr_amount r)) (cumulative_spending gid index rows')
      else cumulative_spending gid index rows'
  end.

(** ** Sample data *)

Definition alice : User := mkUser "alice".
Definition bob : User := mkUser "bob".

Definition sample_db : Db :=
  {| transactions :=
       [ mkTransactionRow "t1" "g-alice" 0 (Some "30.00") (Some "lunch") (Some "c1")
                          (Some "2019-01-05") true;
         mkTransactionRow "t2" "g-bob" 0 (Some "12.00") (Some "tea") None
                          (Some "2019-01-06") true;
         mkTransactionRow "t3" "g-alice" 0 (Some "60.00") (Some "dinner") None
                          (Some "2019-01-07") true;
         mkTransactionRow "t4" "g-bob" 0 (Some "40.00") (Some "dinner") None
                          (Some "2019-01-07") true ];
     shared_transactions := [ mkSharedTransactionRow "s1" (Some "alice") true ];
     transaction_splits :=
       [ mkTransactionSplitRow "t3" "s1" "60.00";
         mkTransactionSplitRow "t4" "s1" "40.00" ];
     frames := [ mkFrameRow "g-alice" 0 "100.00" false ];
     categories := [ mkCategoryRow "c1" "g-alice" 0 "Food" 0 "50.00" false true ];
     membership := [ ("alice", "g-alice"); ("bob", "g-bob") ];
     friendship := [ mkFriendshipRow "alice" "bob" "40.00" ] |}.

Definition split_60_40 : SplitRequest :=
  {| sr_with := "bob";
     sr_iPaid := true;
     sr_otherAmount := Money.ofString "40";
     sr_myShare := Money.ofString "60";
     sr_theirShare := Money.ofString "40" |}.

Definition add_request (amount : Money) (split : option SplitRequest) : AddTransactionRequest :=
  {| atr_frame := 0;
     atr_amount := amount;
     atr_description := "dinner";
     atr_category := Some "c1";
     atr_date := "2019-01-07";
     atr_split := split |}.

(** A group with one frame, one category and one transaction filed under
    the category in that frame. *)
Definition food_db : Db :=
  {| transactions :=
       [ mkTransactionRow "t1" "g-alice" 0 (Some "30.00") (Some "lunch") (Some "c1")
                          (Some "2019-01-05") true ];
     shared_transactions := [];
     transaction_splits := [];
     frames := [ mkFrameRow "g-alice" 0 "100.00" false ];
     categories := [ mkCategoryRow "c1" "g-alice" 0 "Food" 0 "50.00" false true ];
     membership := [ ("alice", "g-alice") ];
     friendship := [] |}.



(** ** The friend handlers *)

(** [Response<T>] is the value or an error object [{code, message}]. *)
Record ErrorResponse : Type := mkErrorResponse {
  code : Z;
  message : String.string
}.

Definition Response (T : Type) : Type := (T + ErrorResponse)%type.

Record FriendRequest : Type := mkFriendRequest { frq_email : String.string }.

Record NameRequest : Type := mkNameRequest { nrq_name : String.string }.

(** What the friend handlers call in [../user], which is not among the
    sources: the two lookups by email, which answer [null] for an email
    nobody has, and the statements on friendships and names.  As above, a
    lookup reads the store, a statement returns the new store. *)
Class UserDirectory : Type := mkUserDirectory {
  getFriendByEmail : String.string -> Db -> option Friend;
  addFriend : Id -> Id -> Db -> Db;
  getUserByEmail : String.string -> Db -> option Id;
  deleteFriendship : Id -> Id -> Db -> Db;
  softDeleteFriendship : Id -> Id -> Db -> Db;
  setName : Id -> String.string -> Db -> Db
}.

Section Friends.
Context {U : UserDirectory}.

Definition handle_add_friend_post (request : FriendRequest) (actor : User) (db : Db)
    : Outcome (Response Friend) :=
  match getFriendByEmail (frq_email request) db with
  | None =>
      Resolved (inr {| code := 404; message := "There is no user with that email" |}) db
  | Some friend =>
      let db := addFriend (uid actor) (friend_uid friend) db in
      Resolved (inl friend) db
  end.

(** [!uid] holds of [null] and of the empty string. *)
Definition handle_reject_friend_post (request : FriendRequest) (actor : User) (db : Db)
    : Outcome (Response unit) :=
  match or_null (getUserByEmail (frq_email request) db) with
  | None =>
      Resolved (inr {| code := 404; message := "There is no user with that email" |}) db
  | Some u =>
      let db := deleteFriendship (uid actor) u db in
      Resolved (inl tt) db
  end.

Definition handle_friend_delete (request : FriendRequest) (actor : User) (db : Db)
    : Outcome (Response unit) :=
  match or_null (getUserByEmail (frq_email request) db) with
  | None =>
      Resolved (inr {| code := 404; message := "There is no user with that email" |}) db
  | Some u =>
      let db := softDeleteFriendship (uid actor) u db in
      Resolved (inl tt) db
  end.

Definition handle_change_name_post (request : NameRequest) (actor : User) (db : Db)
    : Outcome (Response unit) :=
  let db := setName (uid actor) (nrq_name request) db in
  Resolved (inl tt) db.

End Friends.

(** A directory for the examples: Bob is the one user with an email, and a
    user without an identifier answers to another; friendships are rows of
    [friendship]. *)
Definition sample_directory : UserDirectory :=
  {| getFriendByEmail := fun email db =>
       if (email =? "bob@example.org")%string then Some (mkFriend "bob" "g-bob") else None;
     addFriend := fun u other db =>
       with_friendship (insert_row (mkFriendshipRow u other "0.00")) db;
     getUserByEmail := fun email db =>
       if (email =? "bob@example.org")%string then Some "bob"
       else if (email =? "nobody@example.org")%string then Some ""
       else None;
     deleteFriendship := fun u other db =>
       with_friendship (delete_where
         (fun r => (fs_uid r =? u)%string && (fs_friend r =? other)%string)) db;
     softDeleteFriendship := fun u other db =>
       with_friendship (delete_where
         (fun r => (fs_uid r =? u)%string && (fs_friend r =? other)%string)) db;
     setName := fun u name db => db |}.

(** * Properties *)

(** ** Monetary values *)

Lemma plus_comm (a b : Money) : Money.plus a b = Money.plus b a.
Proof. destruct a, b; simpl; try reflexivity. f_equal. lia. Qed.

Lemma plus_assoc (a b c : Money) :
  Money.plus a (Money.plus b c) = Money.plus (Money.plus a b) c.
Proof. destruct a, b, c; simpl; try reflexivity. f_equal. lia. Qed.

Lemma plus_Zero_l (a : Money) : Money.plus Money.Zero a = a.
Proof. destruct a; reflexivity. Qed.

Lemma fold_plus_start (l : list Money) (a : Money) :
  fold_left Money.plus l a = Money.plus a (Money.sum l).
Proof.
  unfold Money.sum. revert a.
  induction l as [|x l IH]; intros a; cbn [fold_left].
  - destruct a; simpl; try reflexivity. f_equal. lia.
  - rewrite IH. rewrite (IH (Money.plus Money.Zero x)).
    rewrite plus_Zero_l. symmetry. apply plus_assoc.
Qed.

Lemma sum_cons (x : Money) (l : list Money) :
  Money.sum (x :: l) = Money.plus x (Money.sum l).
Proof.
  unfold Money.sum at 1. cbn [fold_left]. rewrite fold_plus_start.
  now rewrite plus_Zero_l.
Qed.

(** *** Printing and reading back *)

Lemma string_of_uint_split (d : Decimal.uint) (tail : String.string) :
  Money.split_dot (NilEmpty.string_of_uint d ++ String "." tail)
  = (NilEmpty.string_of_uint d, Some tail).
Proof.
  induction d; cbn [NilEmpty.string_of_uint String.append Money.split_dot];
    try reflexivity;
    match goal with
    | |- context [Ascii.eqb ?a ?b] => change (Ascii.eqb a b) with false
    end;
    cbv iota; rewrite IHd; reflexivity.
Qed.

Lemma to_uint_not_nil (n : N) : N.to_uint n <> Decimal.Nil.
Proof.
  destruct n; cbn [N.to_uint].
  - discriminate.
  - apply DecimalPos.Unsigned.to_uint_nonnil.
Qed.

Lemma digits_string (n : Z) :
  Money.digits n = NilEmpty.string_of_uint (N.to_uint (Z.to_N n)).
Proof.
  unfold Money.digits, NilZero.string_of_uint.
  pose proof (to_uint_not_nil (Z.to_N n)) as H.
  destruct (N.to_uint (Z.to_N n)); [contradiction | reflexivity ..].
Qed.

(** The digits of a number start with a digit, not with a sign. *)
Lemma digits_head (n : Z) :
  exists c rest, Money.digits n = String c rest /\ Ascii.eqb c "-" = false.
Proof.
  rewrite digits_string.
  pose proof (to_uint_not_nil (Z.to_N n)) as H.
  destruct (N.to_uint (Z.to_N n)); [contradiction | ..];
    cbn [NilEmpty.string_of_uint]; eexists; eexists; split; reflexivity.
Qed.

Lemma natural_digits (n : Z) : 0 <= n -> Money.natural (Money.digits n) = Some n.
Proof.
  intros Hn. destruct (digits_head n) as [c [rest [E _]]].
  unfold Money.natural. rewrite E, <- E. rewrite digits_string, NilEmpty.usu.
  cbn [option_map]. rewrite DecimalN.Unsigned.of_to. now rewrite Z2N.id.
Qed.

Lemma hundredths_two_digits (h : Z) :
  0 <= h < 100 -> Money.hundredths (Some (Money.two_digits h)) = Some h.
Proof.
  intros Hh.
  assert (Hall : forallb
            (fun k => match Money.hundredths (Some (Money.two_digits (Z.of_nat k))) with
                      | Some v => v =? Z.of_nat k
                      | None => false
                      end)
            (seq 0 100) = true) by (vm_compute; reflexivity).
  rewrite forallb_forall in Hall.
  specialize (Hall (Z.to_nat h)).
  rewrite Z2Nat.id in Hall by lia.
  assert (Hin : In (Z.to_nat h) (seq 0 100)) by (apply in_seq; lia).
  specialize (Hall Hin).
  destruct (Money.hundredths (Some (Money.two_digits h))) as [v|]; [|discriminate].
  apply Z.eqb_eq in Hall. now subst.
Qed.

Lemma magnitude_printed (c : Z) :
  0 <= c ->
  Money.magnitude (Money.digits (c / 100) ++ "." ++ Money.two_digits (c mod 100)) = Some c.
Proof.
  intros Hc. unfold Money.magnitude.
  rewrite digits_string at 1. cbn [String.append].
  rewrite string_of_uint_split, <- digits_string.
  rewrite natural_digits by (apply Z.div_pos; lia).
  rewrite hundredths_two_digits by (apply Z.mod_pos_bound; lia).
  f_equal. pose proof (Z.div_mod c 100). lia.
Qed.

(** A monetary value printed by [string] and read back by [new Money] is
    the value itself. *)
Lemma ofString_string (m : Money) : Money.ofString (Money.string m) = m.
Proof.
  destruct m as [|c]; [reflexivity|].
  unfold Money.string. destruct (c <? 0) eqn:E.
  - apply Z.ltb_lt in E. cbn [String.append Money.ofString].
    change (Ascii.eqb "-" "-") with true. cbv iota.
    rewrite magnitude_printed by lia. cbn [Money.signed]. f_equal. lia.
  - apply Z.ltb_ge in E. cbn [String.append].
    rewrite Z.abs_eq by lia.
    destruct (digits_head (c / 100)) as [ch [rest [Hd Hch]]].
    pose proof (magnitude_printed c E) as Hm.
    rewrite Hd in *. cbn [String.append Money.ofString] in *.
    rewrite Hch, Hm. reflexivity.
Qed.

Example string_whole : Money.string (Money.Cents 6000) = "60.00".
Proof. reflexivity. Qed.

Example string_small : Money.string (Money.Cents 5) = "0.05".
Proof. reflexivity. Qed.

Example string_negative : Money.string (Money.Cents (-1205)) = "-12.05".
Proof. reflexivity. Qed.

Example ofString_short : Money.ofString "-12.5" = Money.Cents (-1250).
Proof. reflexivity. Qed.

Example ofString_not_a_number : Money.ofString "12a" = Money.NaN.
Proof. reflexivity. Qed.

Example distribute_100_60_40 :
  distributeTotal (Money.ofString "100") (Money.ofString "60") (Money.ofString "40")
  = (Money.ofString "60", Money.ofString "40").
Proof. reflexivity. Qed.

Example distribute_rounds_down :
  distributeTotal (Money.ofString "10.01") (Money.ofString "1") (Money.ofString "2")
  = (Money.ofString "3.33", Money.ofString "6.68").
Proof. reflexivity. Qed.

Lemma isValid_nonneg (m : Money) :
  Money.isValid false m = true <-> exists c, m = Money.Cents c /\ 0 <= c.
Proof.
  destruct m as [|c]; simpl; split.
  - discriminate.
  - intros [c [E _]]. discriminate.
  - intros H. exists c. split; [reflexivity | now apply Z.leb_le].
  - intros [c' [E H]]. inversion E. subst. now apply Z.leb_le.
Qed.

(** The share of a non-negative total lies between zero and the total. *)
Lemma share_bounds (t m s : Z) :
  0 <= t -> 0 <= m -> 0 <= s -> 0 <= t * m / (m + s) <= t.
Proof.
  intros Ht Hm Hs.
  destruct (Z.eq_dec (m + s) 0) as [E | NE].
  - rewrite E. rewrite Z.div_0_r. lia.
  - split.
    + apply Z.div_pos; nia.
    + apply Z.div_le_upper_bound; nia.
Qed.

(** C1. For every valid non-negative triple [(total, myShare, theirShare)],
    [distributeTotal] returns two valid non-negative monetary values whose
    sum is exactly [total]. *)
Theorem distributeTotal_partitions (total myShare theirShare : Money) :
  Money.isValid false total = true ->
  Money.isValid false myShare = true ->
  Money.isValid false theirShare = true ->
  Money.isValid false (fst (distributeTotal total myShare theirShare)) = true
  /\ Money.isValid false (snd (distributeTotal total myShare theirShare)) = true
  /\ Money.plus (fst (distributeTotal total myShare theirShare))
                (snd (distributeTotal total myShare theirShare)) = total.
Proof.
  intros Ht Hm Hs.
  apply isValid_nonneg in Ht as [t [-> Ht]].
  apply isValid_nonneg in Hm as [m [-> Hm]].
  apply isValid_nonneg in Hs as [s [-> Hs]].
  pose proof (share_bounds t m s Ht Hm Hs) as Hb.
  cbn [distributeTotal Money.minus fst snd Money.plus Money.isValid orb].
  repeat split.
  - apply Z.leb_le. lia.
  - apply Z.leb_le. lia.
  - f_equal. lia.
Qed.

Lemma distributeTotal_partitions_witness :
  Money.isValid false
    (fst (distributeTotal (Money.Cents 1001) (Money.Cents 100) (Money.Cents 200))) = true
  /\ Money.isValid false
    (snd (distributeTotal (Money.Cents 1001) (Money.Cents 100) (Money.Cents 200))) = true
  /\ Money.plus (fst (distributeTotal (Money.Cents 1001) (Money.Cents 100) (Money.Cents 200)))
                (snd (distributeTotal (Money.Cents 1001) (Money.Cents 100) (Money.Cents 200)))
     = Money.Cents 1001.
Proof.
  apply (distributeTotal_partitions (Money.Cents 1001) (Money.Cents 100) (Money.Cents 200));
    reflexivity.
Defined.

(** ** Validation in [handle_transaction_post] *)

(** What the handler checks of a split: it is refused exactly when one of
    its three monetary fields is not valid, or the recomputed distribution
    prints differently from what was submitted. *)
Lemma split_rejected_true (request : AddTransactionRequest) (split : SplitRequest) :
  atr_split request = Some split ->
  Money.isValid false (sr_otherAmount split) = false
  \/ Money.isValid false (sr_myShare split) = false
  \/ Money.isValid false (sr_theirShare split) = false
  \/ Money.string
       (fst (distributeTotal (Money.plus (atr_amount request) (sr_otherAmount split))
                             (sr_myShare split) (sr_theirShare split)))
     <> Money.string (atr_amount request)
  \/ Money.string
       (snd (distributeTotal (Money.plus (atr_amount request) (sr_otherAmount split))
                             (sr_myShare split) (sr_theirShare split)))
     <> Money.string (sr_otherAmount split) ->
  split_rejected request = true.
Proof.
  intros Hsplit H. unfold split_rejected. rewrite Hsplit.
  destruct (Money.isValid false (sr_otherAmount split)); [|reflexivity].
  destruct (Money.isValid false (sr_myShare split)); [|reflexivity].
  destruct (Money.isValid false (sr_theirShare split)); [|reflexivity].
  cbn [negb orb].
  destruct (distributeTotal _ _ _) as [calcAmount calcOtherAmount].
  cbn [fst snd] in H.
  destruct H as [H | [H | [H | [H | H]]]]; try discriminate;
    apply String.eqb_neq in H; rewrite H; cbn [negb orb]; auto using orb_true_r.
Qed.

Lemma post_rejects_invalid_amount {B : Backend}
    (request : AddTransactionRequest) (actor : User) (db : Db) :
  Money.isValid false (atr_amount request) = false ->
  handle_transaction_post request actor db = Resolved (inr 400) db.
Proof.
  intros H. unfold handle_transaction_post. rewrite H. reflexivity.
Qed.

Lemma post_rejects_split {B : Backend}
    (request : AddTransactionRequest) (actor : User) (db : Db) :
  split_rejected request = true ->
  handle_transaction_post request actor db = Resolved (inr 400) db.
Proof.
  intros H. unfold handle_transaction_post. rewrite H.
  destruct (Money.isValid false (atr_amount request)); reflexivity.
Qed.

(** C2. [handle_transaction_post] answers 400 and leaves the store as it was
    whenever the amount is not a valid non-negative monetary value, or a
    split is requested and one of [otherAmount], [myShare], [theirShare] is
    not valid or [distributeTotal(amount + otherAmount, myShare, theirShare)]
    does not print as the submitted [amount] and [otherAmount].  In
    particular a request with amount 60, otherAmount 40 and shares 60 and 40
    passes the validation and, the counterparty being a friend, yields the
    transaction; with amount 50 and the same split it is answered 400. *)
Theorem handle_transaction_post_validation :
  (forall (B : Backend) (request : AddTransactionRequest) (actor : User) (db : Db),
      Money.isValid false (atr_amount request) = false
      \/ (exists split,
             atr_split request = Some split
             /\ (Money.isValid false (sr_otherAmount split) = false
                 \/ Money.isValid false (sr_myShare split) = false
                 \/ Money.isValid false (sr_theirShare split) = false
                 \/ Money.string
                      (fst (distributeTotal
                              (Money.plus (atr_amount request) (sr_otherAmount split))
                              (sr_myShare split) (sr_theirShare split)))
                    <> Money.string (atr_amount request)
                 \/ Money.string
                      (snd (distributeTotal
                              (Money.plus (atr_amount request) (sr_otherAmount split))
                              (sr_myShare split) (sr_theirShare split)))
                    <> Money.string (sr_otherAmount split))) ->
      handle_transaction_post request actor db = Resolved (inr 400) db)
  /\ (forall (B : Backend) (request : AddTransactionRequest) (split : SplitRequest)
             (actor : User) (db : Db),
         atr_split request = Some split ->
         atr_amount request = Money.ofString "60" ->
         sr_otherAmount split = Money.ofString "40" ->
         sr_myShare split = Money.ofString "60" ->
         sr_theirShare split = Money.ofString "40" ->
         split_rejected request = false
         /\ (isFriend (uid actor) (sr_with split) db = true ->
             exists tx db',
               handle_transaction_post request actor db = Resolved (inl tx) db'
               /\ t_amount tx = Money.ofString "60"))
  /\ (forall (B : Backend) (request : AddTransactionRequest) (split : SplitRequest)
             (actor : User) (db : Db),
         atr_split request = Some split ->
         atr_amount request = Money.ofString "50" ->
         sr_otherAmount split = Money.ofString "40" ->
         sr_myShare split = Money.ofString "60" ->
         sr_theirShare split = Money.ofString "40" ->
         handle_transaction_post request actor db = Resolved (inr 400) db).
Proof.
  split; [|split].
  - intros B request actor db [H | [split [Hsplit H]]].
    + now apply post_rejects_invalid_amount.
    + apply post_rejects_split. now apply split_rejected_true with split.
  - intros B request split actor db Hsplit Ha Ho Hm Ht.
    assert (Hok : split_rejected request = false).
    { unfold split_rejected. rewrite Hsplit, Ha, Ho, Hm, Ht. reflexivity. }
    split; [exact Hok|].
    intros Hfriend. unfold handle_transaction_post.
    rewrite Hok, Hsplit, Hfriend, Ha. cbn [Money.isValid Money.ofString negb].
    destruct (truthy (sr_with split)); eexists; eexists; split; reflexivity.
  - intros B request split actor db Hsplit Ha Ho Hm Ht.
    apply post_rejects_split.
    unfold split_rejected. rewrite Hsplit, Ha, Ho, Hm, Ht. reflexivity.
Qed.

Lemma handle_transaction_post_validation_witness :
  handle_transaction_post (B := model)
    (add_request Money.NaN (Some split_60_40)) alice sample_db
  = Resolved (inr 400) sample_db
  /\ (exists tx db',
         handle_transaction_post (B := model)
           (add_request (Money.ofString "60") (Some split_60_40)) alice sample_db
         = Resolved (inl tx) db'
         /\ t_amount tx = Money.ofString "60")
  /\ handle_transaction_post (B := model)
       (add_request (Money.ofString "50") (Some split_60_40)) alice sample_db
     = Resolved (inr 400) sample_db.
Proof.
  destruct handle_transaction_post_validation as [Hbad [Hok Hmismatch]].
  split; [|split].
  - apply Hbad. left. reflexivity.
  - apply (Hok model (add_request (Money.ofString "60") (Some split_60_40)) split_60_40);
      reflexivity.
  - apply (Hmismatch model (add_request (Money.ofString "50") (Some split_60_40)) split_60_40);
      reflexivity.
Defined.

(** ** The frame balance *)

Lemma sum_income_select (gid : Id) (index : FrameIndex) (rows : list FrameRow) :
  Money.sum (map (fun r => Money.ofString (fr_income r))
                 (select_where
                    (fun r => (fr_gid r =? gid)%string && (fr_index r <=? index)) rows))
  = cumulative_income gid index rows.
Proof.
  unfold select_where.
  induction rows as [|r rows IH]; [reflexivity|].
  cbn [filter cumulative_income].
  destruct ((fr_gid r =? gid)%string && (fr_index r <=? index)).
  - cbn [map]. rewrite sum_cons. now rewrite IH.
  - exact IH.
Qed.

Lemma sum_spending_select (gid : Id) (index : FrameIndex) (rows : list TransactionRow) :
  Money.sum (map (fun r => Money.ofColumn (tr_amount r))
                 (select_where
                    (fun r => (tr_gid r =? gid)%string && (tr_frame r <=? index) && tr_alive r)
                    rows))
  = cumulative_spending gid index rows.
Proof.
  unfold select_where.
  induction rows as [|r rows IH]; [reflexivity|].
  cbn [filter cumulative_spending].
  destruct ((tr_gid r =? gid)%string && (tr_frame r <=? index) && tr_alive r).
  - cbn [map]. rewrite sum_cons. now rewrite IH.
  - exact IH.
Qed.

(** C3. For every group, frame index and store, [getBalance(gid, index)] is
    the sum of the income of the frames of the group with index at most the
    given one, minus the sum of the amounts of the alive transactions of the
    group with frame at most the given index. *)
Theorem getBalance_cumulative (gid : Id) (index : FrameIndex) (db : Db) :
  getBalance gid index db
  = Money.minus (cumulative_income gid index (frames db))
                (cumulative_spending gid index (transactions db)).
Proof.
  unfold getBalance.
  now rewrite sum_income_select, sum_spending_select.
Qed.

(** ** [order by] *)

Section OrderBy.
Context {A : Type} (key : A -> Z).

Lemma insert_by_perm (x : A) (l : list A) :
  Permutation (insert_by key x l) (x :: l).
Proof.
  induction l as [|y l IH]; cbn [insert_by].
  - reflexivity.
  - destruct (key x <=? key y).
    + reflexivity.
    + rewrite IH. apply perm_swap.
Qed.

Lemma order_by_perm (l : list A) : Permutation (order_by key l) l.
Proof.
  induction l as [|x l IH]; cbn [order_by fold_right].
  - reflexivity.
  - fold (order_by key l). rewrite insert_by_perm. now constructor.
Qed.

Lemma insert_by_sorted (x : A) (l : list A) :
  StronglySorted (key_le key) l -> StronglySorted (key_le key) (insert_by key x l).
Proof.
  induction 1 as [|y l Hsorted IH Hall]; cbn [insert_by].
  - constructor; constructor.
  - destruct (key x <=? key y) eqn:E.
    + apply Z.leb_le in E. constructor.
      * now constructor.
      * constructor; [exact E|].
        eapply Forall_impl; [|exact Hall]. unfold key_le. intros; lia.
    + apply Z.leb_gt in E. constructor; [exact IH|].
      eapply Permutation_Forall.
      * symmetry. apply insert_by_perm.
      * constructor; [unfold key_le; lia | exact Hall].
Qed.

Lemma order_by_sorted (l : list A) : StronglySorted (key_le key) (order_by key l).
Proof.
  induction l as [|x l IH]; cbn [order_by fold_right].
  - constructor.
  - now apply insert_by_sorted.
Qed.

Lemma order_by_In (x : A) (l : list A) : In x (order_by key l) <-> In x l.
Proof.
  split; apply Permutation_in; [|symmetry]; apply order_by_perm.
Qed.

End OrderBy.

(** ** [getCategories] *)

Section Categories.
Context {B : Backend}.

Lemma getCategories_unfold (gid : Id) (frame : FrameIndex) (db : Db) :
  getCategories gid frame db
  = map (with_frame_balance frame db)
        (order_by cr_ordering
           (select_where
              (fun r => (cr_gid r =? gid)%string && (cr_frame r =? frame) && cr_alive r)
              (categories db))).
Proof. reflexivity. Qed.

Lemma sorted_rows_sorted_categories (frame : FrameIndex) (db : Db) (rows : list CategoryRow) :
  StronglySorted (key_le cr_ordering) rows ->
  StronglySorted (fun a b => c_ordering a <= c_ordering b)
                 (map (with_frame_balance frame db) rows).
Proof.
  induction 1 as [|r rows Hsorted IH Hall]; cbn [map]; constructor.
  - exact IH.
  - apply Forall_map. eapply Forall_impl; [|exact Hall].
    intros r' Hle. exact Hle.
Qed.

(** Every category returned stems from a row of the table that belongs to
    the group and the frame asked for. *)
Lemma getCategories_rows (gid : Id) (frame : FrameIndex) (db : Db) (c : Category) :
  In c (getCategories gid frame db) ->
  exists row,
    In row (categories db)
    /\ c = with_frame_balance frame db row
    /\ cr_gid row = gid /\ cr_frame row = frame /\ cr_alive row = true.
Proof.
  rewrite getCategories_unfold. intros H.
  apply in_map_iff in H as [row [<- Hrow]].
  apply order_by_In in Hrow. apply filter_In in Hrow as [Hin Hp].
  apply andb_prop in Hp as [Hp Halive]. apply andb_prop in Hp as [Hgid Hframe].
  exists row. repeat split; try assumption.
  - now apply String.eqb_eq.
  - now apply Z.eqb_eq.
Qed.

(** Every alive category row of the group and frame is returned, once for
    each time it is in the table. *)
Lemma getCategories_complete (gid : Id) (frame : FrameIndex) (db : Db) :
  Permutation
    (getCategories gid frame db)
    (map (with_frame_balance frame db)
         (select_where
            (fun r => (cr_gid r =? gid)%string && (cr_frame r =? frame) && cr_alive r)
            (categories db))).
Proof.
  rewrite getCategories_unfold. apply Permutation_map. apply order_by_perm.
Qed.

Lemma getCategories_balance (gid : Id) (frame : FrameIndex) (db : Db) :
  Forall (fun c =>
            c_balance c
            = Money.minus (c_budget c) (categories_getSpending (c_id c) frame db))
         (getCategories gid frame db).
Proof.
  apply Forall_forall. intros c Hc.
  apply getCategories_rows in Hc as [row [_ [-> _]]]. reflexivity.
Qed.

(** C10. [getCategories(gid, frame)] returns only categories whose alive flag
    is true, in ascending order of [ordering], and the balance of each is its
    budget minus the spending of that category in that frame. *)
Theorem getCategories_alive_sorted_balance (gid : Id) (frame : FrameIndex) (db : Db) :
  Forall (fun c => c_alive c = true) (getCategories gid frame db)
  /\ StronglySorted (fun a b => c_ordering a <= c_ordering b) (getCategories gid frame db)
  /\ Forall (fun c =>
               c_balance c
               = Money.minus (c_budget c) (categories_getSpending (c_id c) frame db))
            (getCategories gid frame db).
Proof.
  split; [|split].
  - apply Forall_forall. intros c Hc.
    apply getCategories_rows in Hc as [row [_ [-> [_ [_ Halive]]]]]. exact Halive.
  - rewrite getCategories_unfold.
    apply sorted_rows_sorted_categories. apply order_by_sorted.
  - apply getCategories_balance.
Qed.

End Categories.

(** ** [handle_transaction_delete] *)

(** C7. For every transaction id for which [canUserEdit(id, actor)] is false,
    [handle_transaction_delete] answers 400 and the store is left as it was;
    when [canUserEdit] holds, the transaction is deleted through
    [transactions.deleteTransaction] and the answer is 204. *)
Theorem handle_transaction_delete_authorized {B : Backend}
    (request : DeleteTransactionRequest) (actor : User) (db : Db) :
  (canUserEdit (dtr_id request) (uid actor) db = false ->
   handle_transaction_delete request actor db = Resolved 400 db
   /\ committed db (handle_transaction_delete request actor db) = db)
  /\ (canUserEdit (dtr_id request) (uid actor) db = true ->
      handle_transaction_delete request actor db
      = Resolved 204 (deleteTransaction (dtr_id request) db)).
Proof.
  unfold handle_transaction_delete.
  split; intros H; rewrite H; cbn [negb committed]; auto.
Qed.

(** In the implementation above, a transaction that does not exist, or that
    belongs to another group than the user's, cannot be edited. *)
Lemma model_canUserEdit_false (id u : Id) (db : Db) :
  (forall r, In r (transactions db) -> tr_id r = id ->
             tr_gid r <> model_getDefaultGroup (mkUser u) db) ->
  model_canUserEdit id u db = false.
Proof.
  intros H. unfold model_canUserEdit.
  destruct (existsb _ (transactions db)) eqn:E; [|reflexivity].
  apply existsb_exists in E as [r [Hin Hr]].
  apply andb_prop in Hr as [Hid Hgid].
  apply String.eqb_eq in Hid. apply String.eqb_eq in Hgid.
  exfalso. now apply (H r Hin Hid).
Qed.

(** In the implementation above, a deleted transaction stays in the table,
    its [alive] flag cleared. *)
Lemma model_deleteTransaction_soft (id : Id) (db : Db) :
  map tr_id (transactions (model_deleteTransaction id db)) = map tr_id (transactions db)
  /\ forall r, In r (transactions (model_deleteTransaction id db)) ->
               tr_id r = id -> tr_alive r = false.
Proof.
  cbn [model_deleteTransaction with_transactions transactions]. unfold update_where.
  split.
  - rewrite map_map. apply map_ext. intros r.
    now destruct (tr_id r =? id)%string.
  - intros r Hin Hid. apply in_map_iff in Hin as [r0 [Hr Hin]].
    destruct (tr_id r0 =? id)%string eqn:E.
    + now subst r.
    + subst r. apply String.eqb_neq in E. contradiction.
Qed.

Lemma handle_transaction_delete_authorized_witness :
  handle_transaction_delete (B := model) (mkDeleteTransactionRequest "t2") alice sample_db
  = Resolved 400 sample_db
  /\ handle_transaction_delete (B := model) (mkDeleteTransactionRequest "missing") alice sample_db
     = Resolved 400 sample_db
  /\ handle_transaction_delete (B := model) (mkDeleteTransactionRequest "t1") alice sample_db
     = Resolved 204 (model_deleteTransaction "t1" sample_db).
Proof.
  split; [|split].
  - apply (proj1 (handle_transaction_delete_authorized (B := model)
                    (mkDeleteTransactionRequest "t2") alice sample_db)).
    reflexivity.
  - apply (proj1 (handle_transaction_delete_authorized (B := model)
                    (mkDeleteTransactionRequest "missing") alice sample_db)).
    reflexivity.
  - apply (proj2 (handle_transaction_delete_authorized (B := model)
                    (mkDeleteTransactionRequest "t1") alice sample_db)).
    reflexivity.
Defined.

(** ** The field updates *)

Section Updates.
Context {B : Backend}.


Lemma get_set_field (field : txField) (val : option String.string) (r : TransactionRow) :
  get_field field (set_field field val r) = val.
Proof. destruct field; reflexivity. Qed.

(** After the statement, every row with the given id holds the value. *)
Lemma updated_rows (field : txField) (val : option String.string) (id : Id) (db : Db)
    (r : TransactionRow) :
  In r (transactions (update_transaction_field field val id db)) ->
  tr_id r = id ->
  get_field field r = val.
Proof.
  cbn [update_transaction_field with_transactions transactions]. unfold update_where.
  intros Hin Hid. apply in_map_iff in Hin as [r0 [Hr Hin]].
  destruct (tr_id r0 =? id)%string eqn:E.
  - subst r. apply get_set_field.
  - subst r. apply String.eqb_neq in E. contradiction.
Qed.

(** A row after the statement is a row from before it, or holds the value. *)
Lemma updated_or_kept (field : txField) (val : option String.string) (id : Id) (db : Db)
    (r : TransactionRow) :
  In r (transactions (update_transaction_field field val id db)) ->
  get_field field r = val \/ In r (transactions db).
Proof.
  cbn [update_transaction_field with_transactions transactions]. unfold update_where.
  intros Hin. apply in_map_iff in Hin as [r0 [Hr Hin]].
  destruct (tr_id r0 =? id)%string.
  - left. subst r. apply get_set_field.
  - right. now subst r.
Qed.

Lemma updated_twice (field : txField) (val : option String.string) (id other : Id) (db : Db)
    (r : TransactionRow) :
  In r (transactions (update_transaction_field field val other
                        (update_transaction_field field val id db))) ->
  tr_id r = id \/ tr_id r = other ->
  get_field field r = val.
Proof.
  intros Hin [Hid | Hid].
  - destruct (updated_or_kept _ _ _ _ _ Hin) as [Hval | Hkept]; [exact Hval|].
    now apply updated_rows with id db.
  - eapply updated_rows; eassumption.
Qed.

(** An update of a field that is shared, on a split transaction of the
    caller's group, once the value has passed the validity check. *)
Lemma update_post_shared {V : Type} (as_string : V -> option String.string)
    (field : txField) (id : Id) (value : V) (actor : User)
    (isValid : option (V -> bool)) (transform : option (V -> option String.string))
    (db : Db) (existing : Transaction) (split : Split) (val : option String.string) :
  isSharedField field = true ->
  match transform with
  | Some f => f value = val
  | None => as_string value = val /\ val <> None
  end ->
  match isValid with Some f => f value = true | None => True end ->
  getTransaction id db = Some existing ->
  t_gid existing = getDefaultGroup actor db ->
  t_split existing = Some split ->
  handle_transaction_update_post as_string field id value actor isValid transform db
  = Resolved 204
      (update_transaction_field field val
         (getOtherTid id (split_id split) (update_transaction_field field val id db))
         (update_transaction_field field val id db)).
Proof.
  intros Hshared Htransform Hvalid Hget Hgid Hsplit.
  unfold handle_transaction_update_post.
  assert (Hcan : canEditShared field = true) by (destruct field; try discriminate; reflexivity).
  destruct transform as [f|].
  - replace ((match isValid with Some f0 => f0 | None => fun _ => true end) value) with true
      by (destruct isValid; auto).
    cbn [negb]. rewrite Hget, Hgid, String.eqb_refl, Hsplit, Hshared, Hcan.
    cbn [negb is_some andb]. now rewrite Htransform.
  - destruct Htransform as [Hstr Hsome].
    destruct (as_string value) eqn:E; [|now subst val].
    replace ((match isValid with Some f0 => f0 | None => fun _ => true end) value) with true
      by (destruct isValid; auto).
    cbn [negb]. rewrite Hget, Hgid, String.eqb_refl, Hsplit, Hshared, Hcan.
    cbn [negb is_some andb]. now rewrite E, Hstr.
Qed.

(** C5, as the code has it.  An amount update on a transaction of the
    caller's default group that has a split is answered 400 and the store is
    left as it was.  On a transaction of a different group it is answered 401
    when the submitted amount is valid; an amount that is not valid is
    answered 400 before the transaction is looked up. *)
Theorem handle_transaction_amount_post_guards
    (request : TransactionAmountRequest) (actor : User) (db : Db) (existing : Transaction) :
  getTransaction (tar_id request) db = Some existing ->
  (t_gid existing = getDefaultGroup actor db ->
   t_split existing <> None ->
   handle_transaction_amount_post request actor db = Resolved 400 db)
  /\ (t_gid existing <> getDefaultGroup actor db ->
      Money.isValid true (tar_amount request) = true ->
      handle_transaction_amount_post request actor db = Resolved 401 db)
  /\ (Money.isValid true (tar_amount request) = false ->
      handle_transaction_amount_post request actor db = Resolved 400 db).
Proof.
  intros Hget.
  unfold handle_transaction_amount_post, handle_transaction_update_post.
  split; [|split].
  - intros Hgid Hsplit.
    destruct (Money.isValid true (tar_amount request)); cbn [negb]; [|reflexivity].
    rewrite Hget, Hgid, String.eqb_refl.
    destruct (t_split existing); [reflexivity | contradiction].
  - intros Hgid Hvalid. rewrite Hvalid. cbn [negb]. rewrite Hget.
    apply String.eqb_neq in Hgid. now rewrite Hgid.
  - intros Hvalid. now rewrite Hvalid.
Qed.

(** The statement on the date, row by row. *)
Lemma update_date_rows (val : option String.string) (id : Id) (db : Db) :
  update_transaction_field field_date val id db
  = mkDb (map (fun b =>
                 mkTransactionRow (tr_id b) (tr_gid b) (tr_frame b) (tr_amount b)
                   (tr_description b) (tr_category b)
                   (if (tr_id b =? id)%string then val else tr_date b) (tr_alive b))
              (transactions db))
         (shared_transactions db) (transaction_splits db) (frames db) (categories db)
         (membership db) (friendship db).
Proof.
  unfold update_transaction_field, with_transactions, update_where.
  f_equal. apply map_ext. intros [i g f a d c dt al].
  cbn. now destruct (i =? id)%string.
Qed.

Lemma update_date_twice (val : option String.string) (id other : Id) (db : Db) :
  update_transaction_field field_date val other
    (update_transaction_field field_date val id db)
  = mkDb (map (fun b =>
                 mkTransactionRow (tr_id b) (tr_gid b) (tr_frame b) (tr_amount b)
                   (tr_description b) (tr_category b)
                   (if (tr_id b =? id)%string || (tr_id b =? other)%string
                    then val else tr_date b) (tr_alive b))
              (transactions db))
         (shared_transactions db) (transaction_splits db) (frames db) (categories db)
         (membership db) (friendship db).
Proof.
  rewrite !update_date_rows.
  cbn [transactions shared_transactions transaction_splits frames categories
       membership friendship].
  f_equal. rewrite map_map. apply map_ext. intros [i g f a d c dt al].
  cbn. now destruct (i =? id)%string, (i =? other)%string.
Qed.

(** The statement on the description, row by row. *)
Lemma update_description_rows (val : option String.string) (id : Id) (db : Db) :
  update_transaction_field field_description val id db
  = mkDb (map (fun b =>
                 mkTransactionRow (tr_id b) (tr_gid b) (tr_frame b) (tr_amount b)
                   (if (tr_id b =? id)%string then val else tr_description b)
                   (tr_category b) (tr_date b) (tr_alive b))
              (transactions db))
         (shared_transactions db) (transaction_splits db) (frames db) (categories db)
         (membership db) (friendship db).
Proof.
  unfold update_transaction_field, with_transactions, update_where.
  f_equal. apply map_ext. intros [i g f a d c dt al].
  cbn. now destruct (i =? id)%string.
Qed.

Lemma update_description_twice (val : option String.string) (id other : Id) (db : Db) :
  update_transaction_field field_description val other
    (update_transaction_field field_description val id db)
  = mkDb (map (fun b =>
                 mkTransactionRow (tr_id b) (tr_gid b) (tr_frame b) (tr_amount b)
                   (if (tr_id b =? id)%string || (tr_id b =? other)%string
                    then val else tr_description b)
                   (tr_category b) (tr_date b) (tr_alive b))
              (transactions db))
         (shared_transactions db) (transaction_splits db) (frames db) (categories db)
         (membership db) (friendship db).
Proof.
  rewrite !update_description_rows.
  cbn [transactions shared_transactions transaction_splits frames categories
       membership friendship].
  f_equal. rewrite map_map. apply map_ext. intros [i g f a d c dt al].
  cbn. now destruct (i =? id)%string, (i =? other)%string.
Qed.

(** A table rewritten row by row, the identifier of each row kept, has the
    rows it had: the same identifiers in the same order. *)
Lemma rows_rewritten (f : TransactionRow -> TransactionRow) (l : list TransactionRow) :
  (forall b, tr_id (f b) = tr_id b) ->
  map tr_id (map f l) = map tr_id l
  /\ List.length (map f l) = List.length l
  /\ (forall b, In b l -> exists r, In r (map f l) /\ tr_id r = tr_id b).
Proof.
  intros Hid. split; [|split].
  - rewrite map_map. now apply map_ext.
  - apply length_map.
  - intros b Hb. exists (f b). split; [now apply in_map | apply Hid].
Qed.

(** C6. For a split transaction of the caller's default group, an update of
    the date, or of the description to a non-empty text, is answered 204,
    and the store it leaves is the store it found with the value written to
    the date (or the description) of the rows of the transaction asked for
    and of the linked transaction of its split, and nothing else changed:
    every transaction is still there, under its identifier and in its
    place, every row with one of the two ids holds the value, and every
    other row, column and table is what it was. *)
Theorem shared_field_update_propagates :
  (forall (request : TransactionDateRequest) (actor : User) (db : Db)
          (existing : Transaction) (split : Split),
      getTransaction (tdt_id request) db = Some existing ->
      t_gid existing = getDefaultGroup actor db ->
      t_split existing = Some split ->
      let id := tdt_id request in
      let val := Some (tdt_date request) in
      let written (ids : Id -> bool) (b : TransactionRow) :=
        mkTransactionRow (tr_id b) (tr_gid b) (tr_frame b) (tr_amount b)
          (tr_description b) (tr_category b)
          (if ids (tr_id b) then val else tr_date b) (tr_alive b) in
      let db1 :=
        mkDb (map (written (fun i => (i =? id)%string)) (transactions db))
             (shared_transactions db) (transaction_splits db) (frames db) (categories db)
             (membership db) (friendship db) in
      let otherTid := getOtherTid id (split_id split) db1 in
      let db' :=
        mkDb (map (written (fun i => (i =? id)%string || (i =? otherTid)%string))
                  (transactions db))
             (shared_transactions db) (transaction_splits db) (frames db) (categories db)
             (membership db) (friendship db) in
      handle_transaction_date_post request actor db = Resolved 204 db'
      /\ map tr_id (transactions db') = map tr_id (transactions db)
      /\ (forall b, In b (transactions db) ->
                    exists r, In r (transactions db') /\ tr_id r = tr_id b)
      /\ (forall r, In r (transactions db') ->
                    tr_id r = id \/ tr_id r = otherTid -> tr_date r = val)
      /\ (forall r, In r (transactions db') ->
                    tr_id r <> id -> tr_id r <> otherTid -> In r (transactions db)))
  /\ (forall (request : TransactionDescriptionRequest) (actor : User) (db : Db)
             (existing : Transaction) (split : Split),
         truthy (tdr_description request) = true ->
         getTransaction (tdr_id request) db = Some existing ->
         t_gid existing = getDefaultGroup actor db ->
         t_split existing = Some split ->
         let id := tdr_id request in
         let val := Some (tdr_description request) in
         let written (ids : Id -> bool) (b : TransactionRow) :=
           mkTransactionRow (tr_id b) (tr_gid b) (tr_frame b) (tr_amount b)
             (if ids (tr_id b) then val else tr_description b)
             (tr_category b) (tr_date b) (tr_alive b) in
         let db1 :=
           mkDb (map (written (fun i => (i =? id)%string)) (transactions db))
                (shared_transactions db) (transaction_splits db) (frames db) (categories db)
                (membership db) (friendship db) in
         let otherTid := getOtherTid id (split_id split) db1 in
         let db' :=
           mkDb (map (written (fun i => (i =? id)%string || (i =? otherTid)%string))
                     (transactions db))
                (shared_transactions db) (transaction_splits db) (frames db) (categories db)
                (membership db) (friendship db) in
         handle_transaction_description_post request actor db = Resolved 204 db'
         /\ map tr_id (transactions db') = map tr_id (transactions db)
         /\ (forall b, In b (transactions db) ->
                       exists r, In r (transactions db') /\ tr_id r = tr_id b)
         /\ (forall r, In r (transactions db') ->
                       tr_id r = id \/ tr_id r = otherTid -> tr_description r = val)
         /\ (forall r, In r (transactions db') ->
                       tr_id r <> id -> tr_id r <> otherTid -> In r (transactions db))).
Proof.
  split.
  - intros request actor db existing split Hget Hgid Hsplit id val written db1 otherTid db'.
    destruct (rows_rewritten
                (written (fun i => (i =? id)%string || (i =? otherTid)%string))
                (transactions db) (fun b => eq_refl)) as [Hids [_ Hthere]].
    split; [|split; [exact Hids | split; [exact Hthere | split]]].
    + unfold handle_transaction_date_post.
      etransitivity.
      { apply (update_post_shared (fun s => Some s) field_date (tdt_id request)
                 (tdt_date request) actor None None db existing split
                 (Some (tdt_date request)));
          [reflexivity | split; [reflexivity | discriminate] | exact I
           | exact Hget | exact Hgid | exact Hsplit]. }
      rewrite update_date_twice, update_date_rows. reflexivity.
    + subst db' written. cbn [transactions]. intros r Hin Hid.
      apply in_map_iff in Hin as [b [<- _]]. cbn [tr_id tr_date] in *.
      destruct Hid as [-> | ->]; rewrite String.eqb_refl; cbn [orb];
        now rewrite ?orb_true_r.
    + subst db' written. cbn [transactions]. intros r Hin Hid Hother.
      apply in_map_iff in Hin as [b [<- Hb]]. cbn [tr_id] in *.
      apply String.eqb_neq in Hid. apply String.eqb_neq in Hother.
      rewrite Hid, Hother. cbn [orb]. now destruct b.
  - intros request actor db existing split Htruthy Hget Hgid Hsplit
           id val written db1 otherTid db'.
    destruct (rows_rewritten
                (written (fun i => (i =? id)%string || (i =? otherTid)%string))
                (transactions db) (fun b => eq_refl)) as [Hids [_ Hthere]].
    split; [|split; [exact Hids | split; [exact Hthere | split]]].
    + unfold handle_transaction_description_post.
      etransitivity.
      { apply (update_post_shared (fun s => Some s) field_description (tdr_id request)
                 (tdr_description request) actor (Some truthy) None db existing split
                 (Some (tdr_description request)));
          [reflexivity | split; [reflexivity | discriminate] | exact Htruthy
           | exact Hget | exact Hgid | exact Hsplit]. }
      rewrite update_description_twice, update_description_rows. reflexivity.
    + subst db' written. cbn [transactions]. intros r Hin Hid.
      apply in_map_iff in Hin as [b [<- _]]. cbn [tr_id tr_description] in *.
      destruct Hid as [-> | ->]; rewrite String.eqb_refl; cbn [orb];
        now rewrite ?orb_true_r.
    + subst db' written. cbn [transactions]. intros r Hin Hid Hother.
      apply in_map_iff in Hin as [b [<- Hb]]. cbn [tr_id] in *.
      apply String.eqb_neq in Hid. apply String.eqb_neq in Hother.
      rewrite Hid, Hother. cbn [orb]. now destruct b.
Qed.

End Updates.

Lemma handle_transaction_amount_post_guards_witness :
  handle_transaction_amount_post (B := model)
    (mkTransactionAmountRequest "t3" (Money.ofString "75")) alice sample_db
  = Resolved 400 sample_db
  /\ handle_transaction_amount_post (B := model)
       (mkTransactionAmountRequest "t2" (Money.ofString "75")) alice sample_db
     = Resolved 401 sample_db.
Proof.
  split.
  - eapply (proj1 (handle_transaction_amount_post_guards (B := model)
                     (mkTransactionAmountRequest "t3" (Money.ofString "75"))
                     alice sample_db _ eq_refl)).
    + reflexivity.
    + discriminate.
  - eapply (proj1 (proj2 (handle_transaction_amount_post_guards (B := model)
                            (mkTransactionAmountRequest "t2" (Money.ofString "75"))
                            alice sample_db _ eq_refl))).
    + discriminate.
    + reflexivity.
Defined.

(** C5, as the specification states it, fails: an amount that is not a
    valid monetary value, submitted for a transaction of a different group,
    is answered 400 and not 401. *)
Lemma handle_transaction_amount_post_foreign_invalid :
  exists existing,
    getTransaction (Backend := model) "t2" sample_db = Some existing
    /\ t_gid existing <> getDefaultGroup (Backend := model) alice sample_db
    /\ handle_transaction_amount_post (B := model)
         (mkTransactionAmountRequest "t2" Money.NaN) alice sample_db
       = Resolved 400 sample_db
    /\ handle_transaction_amount_post (B := model)
         (mkTransactionAmountRequest "t2" Money.NaN) alice sample_db
       <> Resolved 401 sample_db.
Proof.
  eexists. split; [reflexivity|].
  split; [discriminate|].
  split; [reflexivity | discriminate].
Qed.

Lemma shared_field_update_propagates_witness :
  (exists db',
      handle_transaction_date_post (B := model)
        (mkTransactionDateRequest "t3" "2019-02-01") alice sample_db
      = Resolved 204 db'
      /\ map (fun r => (tr_id r, tr_date r)) (transactions db')
         = [ ("t1", Some "2019-01-05"); ("t2", Some "2019-01-06");
             ("t3", Some "2019-02-01"); ("t4", Some "2019-02-01") ]
      /\ map tr_description (transactions db')
         = [Some "lunch"; Some "tea"; Some "dinner"; Some "dinner"])
  /\ (exists db',
         handle_transaction_description_post (B := model)
           (mkTransactionDescriptionRequest "t3" "supper") alice sample_db
         = Resolved 204 db'
         /\ map (fun r => (tr_id r, tr_description r)) (transactions db')
            = [ ("t1", Some "lunch"); ("t2", Some "tea");
                ("t3", Some "supper"); ("t4", Some "supper") ]
         /\ map tr_date (transactions db')
            = [Some "2019-01-05"; Some "2019-01-06"; Some "2019-01-07"; Some "2019-01-07"]).
Proof.
  split.
  - destruct (proj1 (shared_field_update_propagates (B := model))
                (mkTransactionDateRequest "t3" "2019-02-01") alice sample_db
                _ _ eq_refl eq_refl eq_refl) as [Hres _].
    eexists. split; [exact Hres|]. split; reflexivity.
  - destruct (proj2 (shared_field_update_propagates (B := model))
                (mkTransactionDescriptionRequest "t3" "supper") alice sample_db
                _ _ eq_refl eq_refl eq_refl eq_refl) as [Hres _].
    eexists. split; [exact Hres|]. split; reflexivity.
Defined.

(** ** [handle_transaction_split_post] *)



(** ** The mirrored transaction of a split *)

(** C9. When [handle_transaction_post] creates a split transaction, the row
    inserted for the counterparty, the last of the table, has no category,
    whatever category the request names for the primary transaction.  A
    split transaction is created when the request passes the validation,
    names a counterparty and the counterparty is a friend. *)
Theorem mirrored_transaction_has_no_category {B : Backend}
    (request : AddTransactionRequest) (actor : User) (db : Db) :
  (forall (db' : Db) (tx : Transaction) (split : Split),
      handle_transaction_post request actor db = Resolved (inl tx) db' ->
      t_split tx = Some split ->
      exists rsplit rows mirror,
        atr_split request = Some rsplit
        /\ transactions db' = (rows ++ [mirror])%list
        /\ tr_id mirror = randomId 1
        /\ tr_gid mirror = friend_gid (split_with split)
        /\ tr_amount mirror = Some (Money.string (sr_otherAmount rsplit))
        /\ tr_category mirror = None
        /\ t_category tx = atr_category request)
  /\ (forall (rsplit : SplitRequest),
         atr_split request = Some rsplit ->
         Money.isValid false (atr_amount request) = true ->
         split_rejected request = false ->
         truthy (sr_with rsplit) = true ->
         isFriend (uid actor) (sr_with rsplit) db = true ->
         exists db' tx split,
           handle_transaction_post request actor db = Resolved (inl tx) db'
           /\ t_split tx = Some split).
Proof.
  split.
  - unfold handle_transaction_post. intros db' tx split H Hsplit.
    destruct (Money.isValid false (atr_amount request)); [|discriminate].
    destruct (split_rejected request); [discriminate|].
    cbn [negb] in H.
    destruct (atr_split request) as [rsplit|].
    + destruct (truthy (sr_with rsplit)).
      * destruct (isFriend (uid actor) (sr_with rsplit) db); [|discriminate].
        cbn [negb] in H. inversion H; subst; clear H.
        cbn [t_split] in Hsplit. inversion Hsplit; subst; clear Hsplit.
        eexists. eexists. eexists.
        split; [reflexivity|]. split; [reflexivity|].
        repeat split.
      * inversion H; subst. discriminate.
    + inversion H; subst. discriminate.
  - intros rsplit Hsplit Hvalid Hok Hwith Hfriend.
    unfold handle_transaction_post.
    rewrite Hvalid, Hok, Hsplit, Hwith, Hfriend. cbn [negb].
    eexists. eexists. eexists. split; reflexivity.
Qed.


Lemma mirrored_transaction_has_no_category_witness :
  (exists rsplit rows mirror,
      atr_split (add_request (Money.ofString "60") (Some split_60_40)) = Some rsplit
      /\ transactions
           (committed sample_db
              (handle_transaction_post (B := model)
                 (add_request (Money.ofString "60") (Some split_60_40)) alice sample_db))
         = (rows ++ [mirror])%list
      /\ tr_id mirror = "id1"
      /\ tr_gid mirror = "g-bob"
      /\ tr_amount mirror = Some "40.00"
      /\ tr_category mirror = None
      /\ atr_category (add_request (Money.ofString "60") (Some split_60_40)) = Some "c1")
  /\ (exists db' tx split,
         handle_transaction_post (B := model)
           (add_request (Money.ofString "60") (Some split_60_40)) alice sample_db
         = Resolved (inl tx) db'
         /\ t_split tx = Some split).
Proof.
  split.
  - destruct (proj1 (mirrored_transaction_has_no_category (B := model)
                       (add_request (Money.ofString "60") (Some split_60_40)) alice sample_db)
                _ _ _ eq_refl eq_refl)
      as [rsplit [rows [mirror [Hreq [Hrows [Hid [Hgid [Hamount [Hcat Htx]]]]]]]]].
    exists rsplit, rows, mirror.
    inversion Hreq; subst rsplit.
    repeat split; assumption.
  - apply (proj2 (mirrored_transaction_has_no_category (B := model)
                    (add_request (Money.ofString "60") (Some split_60_40)) alice sample_db)
             split_60_40);
      reflexivity.
Defined.

(** ** Frame materialization *)

Section GhostFrames.
Context {B : Backend}.

Lemma insert_rows_append {R C : Type} (row : C -> R) (cs : list C) (table : list R) :
  fold_left (fun table c => insert_row (row c) table) cs table
  = (table ++ map row cs)%list.
Proof.
  revert table. induction cs as [|c cs IH]; intros table; cbn [fold_left map].
  - now rewrite app_nil_r.
  - rewrite IH. unfold insert_row. now rewrite <- app_assoc.
Qed.

Lemma delete_where_In {R : Type} (p : R -> bool) (table : list R) (r : R) :
  In r (delete_where p table) <-> In r table /\ p r = false.
Proof.
  unfold delete_where. rewrite filter_In. now rewrite negb_true_iff.
Qed.

(** [deleteGhost] leaves no ghost row for the frame, and keeps every other
    row. *)
Lemma deleteGhost_frames (gid : Id) (index : FrameIndex) (db : Db) (r : FrameRow) :
  In r (frames (deleteGhost gid index db))
  <-> In r (frames db) /\ ~ (fr_gid r = gid /\ fr_index r = index /\ fr_ghost r = true).
Proof.
  cbn [deleteGhost with_frames with_categories frames].
  rewrite delete_where_In.
  destruct (String.eqb_spec (fr_gid r) gid) as [Hg | Hg],
           (Z.eqb_spec (fr_index r) index) as [Hi | Hi],
           (fr_ghost r); cbn [andb]; intuition congruence.
Qed.

Lemma deleteGhost_categories (gid : Id) (index : FrameIndex) (db : Db) (r : CategoryRow) :
  In r (categories (deleteGhost gid index db))
  <-> In r (categories db) /\ ~ (cr_gid r = gid /\ cr_frame r = index /\ cr_ghost r = true).
Proof.
  cbn [deleteGhost with_frames with_categories categories].
  rewrite delete_where_In.
  destruct (String.eqb_spec (cr_gid r) gid) as [Hg | Hg],
           (Z.eqb_spec (cr_frame r) index) as [Hi | Hi],
           (cr_ghost r); cbn [andb]; intuition congruence.
Qed.

Lemma deleteGhost_transactions (gid : Id) (index : FrameIndex) (db : Db) :
  transactions (deleteGhost gid index db) = transactions db.
Proof. reflexivity. Qed.

(** The previous frame is the nearest one: a frame of the group before the
    index, and no frame of the group before the index comes after it. *)
Lemma getPreviousFrame_nearest (gid : Id) (index : FrameIndex) (db : Db) (prev : Frame) :
  getPreviousFrame gid index db = Some prev ->
  f_gid prev = gid
  /\ f_index prev < index
  /\ (exists row, In row (frames db) /\ prev = frame_of_row row)
  /\ forall r, In r (frames db) -> fr_gid r = gid -> fr_index r < index ->
               fr_index r <= f_index prev.
Proof.
  unfold getPreviousFrame, shared_fromSerialized, limit_1, order_by_desc.
  set (p := fun r => (fr_gid r =? gid)%string && (fr_index r <? index)).
  set (key := fun r : FrameRow => - fr_index r).
  pose proof (order_by_sorted key (select_where p (frames db))) as Hsorted.
  pose proof (order_by_In key) as HIn.
  destruct (order_by key (select_where p (frames db))) as [|row rows] eqn:E;
    [discriminate|].
  cbn [firstn hd_error option_map]. intros H. inversion H; subst prev; clear H.
  assert (Hrow : In row (select_where p (frames db))).
  { apply HIn. rewrite E. now left. }
  apply filter_In in Hrow as [Hrow Hp]. unfold p in Hp.
  apply andb_prop in Hp as [Hg Hi].
  apply String.eqb_eq in Hg. apply Z.ltb_lt in Hi.
  cbn [frame_of_row f_gid f_index].
  repeat split; try assumption.
  - now exists row.
  - intros r Hr Hrg Hri.
    assert (Hsel : In r (row :: rows)).
    { rewrite <- E. apply HIn. apply filter_In. split; [exact Hr|].
      unfold p. apply andb_true_intro. split.
      - now apply String.eqb_eq.
      - now apply Z.ltb_lt. }
    destruct Hsel as [-> | Hsel]; [lia|].
    inversion Hsorted as [|? ? _ Hall]; subst.
    rewrite Forall_forall in Hall. specialize (Hall r Hsel).
    unfold key_le, key in Hall. lia.
Qed.

(** The categories carried forward keep name, budget, identifier and
    ordering, point to the new frame, and keep the balance that was computed
    for the frame they come from. *)
Lemma carried_categories (gid : Id) (index previous : FrameIndex) (db : Db) :
  Forall2
    (fun carried c =>
       c_name carried = c_name c
       /\ c_budget carried = c_budget c
       /\ c_id carried = c_id c
       /\ c_ordering carried = c_ordering c
       /\ c_frame carried = index
       /\ c_balance carried
          = Money.minus (c_budget c) (categories_getSpending (c_id c) previous db))
    (map (set_c_frame index) (getCategories gid previous db))
    (getCategories gid previous db).
Proof.
  pose proof (getCategories_balance gid previous db) as Hbal.
  induction (getCategories gid previous db) as [|c cs IH]; cbn [map]; constructor.
  - inversion Hbal; subst. repeat split; assumption.
  - apply IH. now inversion Hbal.
Qed.

(** The default categories carry the default names in order, a zero budget
    and the new frame. *)
Lemma default_categories_seeded (gid : Id) (index : FrameIndex) (db : Db)
    (i : nat) (names : list String.string) :
  map c_name (default_categories gid index db i names) = names
  /\ Forall (fun c => c_budget c = Money.Zero /\ c_frame c = index /\ c_gid c = gid
                      /\ c_ghost c = true /\ c_alive c = true)
            (default_categories gid index db i names)
  /\ map c_ordering (default_categories gid index db i names)
     = map Z.of_nat (seq i (List.length names)).
Proof.
  revert i. induction names as [|c names IH]; intros i; cbn [default_categories map].
  - repeat split. constructor.
  - destruct (IH (S i)) as [Hn [Hf Ho]]. repeat split.
    + cbn [c_name]. now rewrite Hn.
    + constructor; [repeat split | exact Hf].
    + cbn [c_ordering List.length seq map]. now rewrite Ho.
Qed.

(** What [getOrCreateFrame] does when the frame has no persisted row that is
    not a ghost: the stale ghost rows are deleted, a ghost frame is built
    from the previous frame or from the defaults, and it is saved with its
    categories. *)
Lemma getOrCreateFrame_absent (gid : Id) (index : FrameIndex) (db : Db) :
  select_where
    (fun r => (fr_gid r =? gid)%string && (fr_index r =? index) && negb (fr_ghost r))
    (frames db) = [] ->
  let db1 := deleteGhost gid index db in
  let income :=
    match getPreviousFrame gid index db1 with
    | Some prevFrame => f_income prevFrame
    | None => Money.Zero
    end in
  let cats :=
    match getPreviousFrame gid index db1 with
    | Some prevFrame =>
        map (set_c_frame index) (getCategories gid (f_index prevFrame) db1)
    | None => default_categories gid index db1 0 DEFAULT_CATEGORIES
    end in
  let balance :=
    match getPreviousFrame gid index db1 with
    | Some prevFrame => Money.plus (getBalance gid index db1) (f_income prevFrame)
    | None => getBalance gid index db1
    end in
  getOrCreateFrame gid index db
  = Resolved
      (mkFrame gid index balance income true (getSpending gid index db1) cats)
      (mkDb (transactions db) (shared_transactions db) (transaction_splits db)
            (frames db1 ++ [mkFrameRow gid index (Money.string income) true])
            (categories db1 ++ map category_row cats)
            (membership db) (friendship db)).
Proof.
  intros Hnone. cbv zeta.
  unfold getOrCreateFrame, getOrCreateFrameInner. rewrite Hnone. cbn [oneOrNone].
  destruct (getPreviousFrame gid index (deleteGhost gid index db)) as [prev|];
    unfold with_categories at 1; rewrite insert_rows_append; reflexivity.
Qed.

(** The frame row that is saved reads back with the income of the ghost
    frame. *)
Lemma saved_frame_row_income (gid : Id) (index : FrameIndex) (income : Money) :
  f_income (frame_of_row (mkFrameRow gid index (Money.string income) true)) = income.
Proof. cbn [frame_of_row f_income fr_income]. apply ofString_string. Qed.

(** The category rows that are saved read back with the budgets of the
    categories of the ghost frame. *)
Lemma saved_category_row_budget (c : Category) :
  c_budget (categories_fromSerialized (category_row c)) = c_budget c
  /\ c_name (categories_fromSerialized (category_row c)) = c_name c
  /\ c_frame (categories_fromSerialized (category_row c)) = c_frame c.
Proof.
  cbn [categories_fromSerialized category_row c_budget c_name c_frame
       cr_budget cr_name cr_frame].
  repeat split. apply ofString_string.
Qed.

End GhostFrames.

(** C4, at an input where the code departs from it.  Alice's group has frame
    0 with income 100 and the category Food, budget 50, and a lunch of 30
    filed under it in frame 0; frame 1 has no row.  The ghost frame
    synthesized for index 1 carries the income and the category with its
    name and budget, pointing to frame 1, and its balance is the balance
    through frame 1 plus the income; yet the balance of the carried category
    is 20, the budget minus the spending of frame 0, where the spending of
    the category in the new frame is zero and the balance, as
    [getCategories] computes it for frame 1 on the store just saved, is 50. *)
Theorem carried_category_balance_not_reset :
  exists frame db',
    getOrCreateFrame (B := model) "g-alice" 1 food_db = Resolved frame db'
    /\ f_ghost frame = true
    /\ f_income frame = Money.ofString "100"
    /\ f_balance frame = Money.ofString "170"
    /\ map c_name (f_categories frame) = ["Food"]
    /\ map c_frame (f_categories frame) = [1]
    /\ map c_budget (f_categories frame) = [Money.ofString "50"]
    /\ map c_balance (f_categories frame) = [Money.ofString "20"]
    /\ map (fun c => categories_getSpending (Backend := model) (c_id c) 1 db')
           (f_categories frame) = [Money.Zero]
    /\ map c_balance (getCategories (B := model) "g-alice" 1 db') = [Money.ofString "50"].
Proof.
  eexists. eexists. split; [reflexivity|].
  repeat split.
Qed.

(** * Further properties of the code *)

(** ** Sums and filters *)

Lemma sum_app (l1 l2 : list Money) :
  Money.sum (l1 ++ l2) = Money.plus (Money.sum l1) (Money.sum l2).
Proof.
  unfold Money.sum at 1. rewrite fold_left_app, fold_plus_start. reflexivity.
Qed.

Lemma sum_one (x : Money) : Money.sum [x] = x.
Proof. unfold Money.sum. cbn [fold_left]. apply plus_Zero_l. Qed.

Lemma minus_plus_plus (a b c d : Money) :
  Money.minus (Money.plus a b) (Money.plus c d)
  = Money.plus (Money.minus a c) (Money.minus b d).
Proof. destruct a, b, c, d; simpl; try reflexivity. f_equal. lia. Qed.

Lemma minus_plus_r (a b c : Money) :
  Money.minus a (Money.plus b c) = Money.minus (Money.minus a b) c.
Proof. destruct a, b, c; simpl; try reflexivity. f_equal. lia. Qed.

Lemma minus_plus_l (a b c : Money) :
  Money.minus (Money.plus a c) b = Money.plus (Money.minus a b) c.
Proof. destruct a, b, c; simpl; try reflexivity. f_equal. lia. Qed.

(** A sum over the rows selected by [p] splits along two conditions that
    exclude each other and together make up [p]. *)
Lemma sum_filter_split {A : Type} (f : A -> Money) (p p1 p2 : A -> bool) (l : list A) :
  (forall x, p x = p1 x || p2 x) ->
  (forall x, p1 x && p2 x = false) ->
  Money.sum (map f (filter p l))
  = Money.plus (Money.sum (map f (filter p1 l))) (Money.sum (map f (filter p2 l))).
Proof.
  intros Hp Hex. induction l as [|x l IH]; [reflexivity|].
  cbn [filter]. rewrite Hp. specialize (Hex x).
  destruct (p1 x), (p2 x); try discriminate; cbn [orb map].
  - rewrite !sum_cons, IH. apply plus_assoc.
  - rewrite !sum_cons, IH. rewrite !plus_assoc. f_equal. apply plus_comm.
  - exact IH.
Qed.

Lemma filter_all {A : Type} (p : A -> bool) (l : list A) :
  (forall x, In x l -> p x = true) -> filter p l = l.
Proof.
  induction l as [|x l IH]; intros H; [reflexivity|].
  cbn [filter]. rewrite (H x (or_introl eq_refl)).
  f_equal. apply IH. intros y Hy. apply H. now right.
Qed.

Lemma filter_none {A : Type} (p : A -> bool) (l : list A) :
  (forall x, In x l -> p x = false) -> filter p l = [].
Proof.
  induction l as [|x l IH]; intros H; [reflexivity|].
  cbn [filter]. rewrite (H x (or_introl eq_refl)).
  apply IH. intros y Hy. apply H. now right.
Qed.

Lemma filter_empty_In {A : Type} (p : A -> bool) (l : list A) (x : A) :
  filter p l = [] -> In x l -> p x = false.
Proof.
  intros E Hin. destruct (p x) eqn:Hp; [|reflexivity].
  assert (Hx : In x (filter p l)) by (apply filter_In; now split).
  rewrite E in Hx. destruct Hx.
Qed.

Lemma leb_pred_or_eq (a i : Z) : (a <=? i) = (a <=? i - 1) || (a =? i).
Proof.
  destruct (Z.leb_spec a i), (Z.leb_spec a (i - 1)), (Z.eqb_spec a i);
    try reflexivity; lia.
Qed.

Lemma leb_pred_and_eq (a i : Z) : (a <=? i - 1) && (a =? i) = false.
Proof.
  destruct (Z.leb_spec a (i - 1)), (Z.eqb_spec a i); try reflexivity; lia.
Qed.

(** ** Aggregation in [frames.ts] *)

Section Aggregation.
Context {B : Backend}.

(** The income that [getIncome] answers is the sum of the incomes of the
    rows of the frame. *)
Lemma getIncome_sum (gid : Id) (index : FrameIndex) (db : Db) (income : Money) :
  getIncome gid index db = Some income ->
  Money.sum (map (fun r => Money.ofString (fr_income r))
               (filter (fun r => (fr_gid r =? gid)%string && (fr_index r =? index))
                       (frames db)))
  = income.
Proof.
  unfold getIncome, select_where.
  destruct (filter _ (frames db)) as [|row [|row' rows]]; cbn [oneOrNone map]; intros H.
  - now inversion H.
  - inversion H. apply sum_one.
  - discriminate.
Qed.

(** X4. The balance rolls over from frame to frame: when [getIncome] answers
    for a frame, the balance through it is the balance through the frame
    before, plus its income, minus its spending. *)
Theorem balance_rolls_over (gid : Id) (index : FrameIndex) (db : Db) (income : Money) :
  getIncome gid index db = Some income ->
  getBalance gid index db
  = Money.plus (getBalance gid (index - 1) db)
               (Money.minus income (getSpending gid index db)).
Proof.
  intros Hincome. apply getIncome_sum in Hincome.
  unfold getBalance, getSpending, select_where.
  rewrite (sum_filter_split _
             (fun r => (tr_gid r =? gid)%string && (tr_frame r <=? index) && tr_alive r)
             (fun r => (tr_gid r =? gid)%string && (tr_frame r <=? index - 1) && tr_alive r)
             (fun r => (tr_gid r =? gid)%string && (tr_frame r =? index) && tr_alive r)).
  - rewrite (sum_filter_split _
               (fun r => (fr_gid r =? gid)%string && (fr_index r <=? index))
               (fun r => (fr_gid r =? gid)%string && (fr_index r <=? index - 1))
               (fun r => (fr_gid r =? gid)%string && (fr_index r =? index))).
    + rewrite Hincome. apply minus_plus_plus.
    + intros r. rewrite (leb_pred_or_eq (fr_index r) index).
      now destruct (fr_gid r =? gid)%string, (fr_index r <=? index - 1), (fr_index r =? index).
    + intros r. pose proof (leb_pred_and_eq (fr_index r) index) as H.
      destruct (fr_gid r =? gid)%string, (fr_index r <=? index - 1), (fr_index r =? index);
        try reflexivity; discriminate.
  - intros r. rewrite (leb_pred_or_eq (tr_frame r) index).
    now destruct (tr_gid r =? gid)%string, (tr_frame r <=? index - 1),
                 (tr_frame r =? index), (tr_alive r).
  - intros r. pose proof (leb_pred_and_eq (tr_frame r) index) as H.
    destruct (tr_gid r =? gid)%string, (tr_frame r <=? index - 1),
             (tr_frame r =? index), (tr_alive r); try reflexivity; discriminate.
Qed.

Lemma balance_rolls_over_witness :
  getBalance "g-alice" 0 sample_db
  = Money.plus (getBalance "g-alice" (0 - 1) sample_db)
               (Money.minus (Money.ofString "100") (getSpending "g-alice" 0 sample_db)).
Proof.
  apply (balance_rolls_over "g-alice" 0 sample_db (Money.ofString "100")). reflexivity.
Defined.

Lemma getPreviousFrame_none (gid : Id) (index : FrameIndex) (db : Db) :
  getPreviousFrame gid index db = None ->
  forall r, In r (frames db) -> fr_gid r = gid -> ~ fr_index r < index.
Proof.
  intros E r Hin Hg Hi.
  unfold getPreviousFrame, shared_fromSerialized, limit_1, order_by_desc in E.
  set (p := fun r => (fr_gid r =? gid)%string && (fr_index r <? index)) in E.
  assert (Hr : In r (order_by (fun r => - fr_index r) (select_where p (frames db)))).
  { apply order_by_In. apply filter_In. split; [exact Hin|].
    unfold p. apply andb_true_intro. split.
    - now apply String.eqb_eq.
    - now apply Z.ltb_lt. }
  destruct (order_by _ (select_where p (frames db))); [destruct Hr | discriminate].
Qed.

(** X1. [getPreviousFrame] answers the nearest frame of the group before the
    index: it stems from a row of the group with a smaller index that no
    other such row exceeds; it answers [null] exactly when the group has no
    frame before the index. *)
Theorem previous_frame_is_nearest (gid : Id) (index : FrameIndex) (db : Db) :
  match getPreviousFrame gid index db with
  | Some prev =>
      f_gid prev = gid
      /\ f_index prev < index
      /\ (exists row, In row (frames db) /\ prev = frame_of_row row)
      /\ forall r, In r (frames db) -> fr_gid r = gid -> fr_index r < index ->
                   fr_index r <= f_index prev
  | None =>
      forall r, In r (frames db) -> fr_gid r = gid -> ~ fr_index r < index
  end.
Proof.
  destruct (getPreviousFrame gid index db) as [prev|] eqn:E.
  - now apply getPreviousFrame_nearest.
  - now apply getPreviousFrame_none.
Qed.

(** X5. [getCategories] returns each alive category row of the group and
    frame once, with its balance for the frame attached, and nothing else. *)
Theorem getCategories_exact (gid : Id) (frame : FrameIndex) (db : Db) :
  Permutation
    (getCategories gid frame db)
    (map (with_frame_balance frame db)
       (filter (fun r => (cr_gid r =? gid)%string && (cr_frame r =? frame) && cr_alive r)
               (categories db)))
  /\ forall c, In c (getCategories gid frame db) ->
               c_gid c = gid /\ c_frame c = frame /\ c_alive c = true.
Proof.
  split.
  - apply getCategories_complete.
  - intros c Hc. apply getCategories_rows in Hc as [row [_ [-> [Hg [Hf Ha]]]]].
    now repeat split.
Qed.

End Aggregation.

(** ** Ghost frames *)

Lemma filter_idem {A : Type} (p : A -> bool) (l : list A) :
  filter p (filter p l) = filter p l.
Proof.
  apply filter_all. intros x Hx. now apply filter_In in Hx.
Qed.

(** Rows that a map leaves alone as far as a filter and a projection can
    tell. *)
Lemma map_filter_map {A C : Type} (g : A -> C) (p : A -> bool) (h : A -> A) (l : list A) :
  (forall x, p (h x) = p x) ->
  (forall x, g (h x) = g x) ->
  map g (filter p (map h l)) = map g (filter p l).
Proof.
  intros Hp Hg. induction l as [|x l IH]; [reflexivity|].
  cbn [map filter]. rewrite Hp. destruct (p x); cbn [map]; now rewrite ?Hg, IH.
Qed.

Lemma plus_Zero_r (a : Money) : Money.plus a Money.Zero = a.
Proof. rewrite plus_comm. apply plus_Zero_l. Qed.

(** X2. [deleteGhost] deletes the ghost rows of the frame, in [frames] and in
    [categories], and nothing else: every other row stays, the other tables
    are left alone, and deleting again changes nothing. *)
Theorem deleteGhost_exact (gid : Id) (index : FrameIndex) (db : Db) :
  (forall r, In r (frames (deleteGhost gid index db))
             <-> In r (frames db)
                 /\ ~ (fr_gid r = gid /\ fr_index r = index /\ fr_ghost r = true))
  /\ (forall r, In r (categories (deleteGhost gid index db))
                <-> In r (categories db)
                    /\ ~ (cr_gid r = gid /\ cr_frame r = index /\ cr_ghost r = true))
  /\ transactions (deleteGhost gid index db) = transactions db
  /\ shared_transactions (deleteGhost gid index db) = shared_transactions db
  /\ transaction_splits (deleteGhost gid index db) = transaction_splits db
  /\ deleteGhost gid index (deleteGhost gid index db) = deleteGhost gid index db.
Proof.
  split; [|split; [|split; [|split; [|split]]]]; try reflexivity.
  - intros r. apply deleteGhost_frames.
  - intros r. apply deleteGhost_categories.
  - unfold deleteGhost, with_frames, with_categories, delete_where.
    cbn [frames categories transactions shared_transactions transaction_splits
         membership friendship].
    now rewrite !filter_idem.
Qed.

Lemma markNotGhost_keeps_balance (gid : Id) (index : FrameIndex) (db : Db) :
  (forall g i, getBalance g i (markNotGhost gid index db) = getBalance g i db)
  /\ (forall g i, getSpending g i (markNotGhost gid index db) = getSpending g i db).
Proof.
  split; [|reflexivity].
  intros g i. unfold getBalance, select_where.
  cbn [markNotGhost with_frames with_categories frames transactions]. unfold update_where.
  f_equal. f_equal. apply map_filter_map; intros r;
    now destruct ((fr_gid r =? gid)%string && (fr_index r =? index)).
Qed.

(** X3. [markNotGhost] clears the ghost flag of the frame and of its
    categories, so that a later [deleteGhost] of the frame deletes nothing;
    balance and spending, which do not read the flag, are what they were. *)
Theorem markNotGhost_keeps_frame (gid : Id) (index : FrameIndex) (db : Db) :
  deleteGhost gid index (markNotGhost gid index db) = markNotGhost gid index db
  /\ (forall r, In r (frames (markNotGhost gid index db)) ->
                fr_gid r = gid -> fr_index r = index -> fr_ghost r = false)
  /\ (forall r, In r (categories (markNotGhost gid index db)) ->
                cr_gid r = gid -> cr_frame r = index -> cr_ghost r = false)
  /\ (forall g i, getBalance g i (markNotGhost gid index db) = getBalance g i db)
  /\ (forall g i, getSpending g i (markNotGhost gid index db) = getSpending g i db).
Proof.
  assert (Hf : forall r,
             In r (frames (markNotGhost gid index db)) ->
             (fr_gid r =? gid)%string && (fr_index r =? index) && fr_ghost r = false).
  { cbn [markNotGhost with_frames with_categories frames]. unfold update_where.
    intros r Hin. apply in_map_iff in Hin as [r0 [<- _]].
    destruct ((fr_gid r0 =? gid)%string && (fr_index r0 =? index)) eqn:E.
    - cbn [fr_gid fr_index fr_ghost]. apply andb_false_r.
    - now rewrite E. }
  assert (Hc : forall r,
             In r (categories (markNotGhost gid index db)) ->
             (cr_gid r =? gid)%string && (cr_frame r =? index) && cr_ghost r = false).
  { cbn [markNotGhost with_frames with_categories categories]. unfold update_where.
    intros r Hin. apply in_map_iff in Hin as [r0 [<- _]].
    destruct ((cr_gid r0 =? gid)%string && (cr_frame r0 =? index)) eqn:E.
    - cbn [cr_gid cr_frame cr_ghost]. apply andb_false_r.
    - now rewrite E. }
  split; [|split; [|split; [|split]]].
  - unfold deleteGhost, with_frames, with_categories, delete_where.
    cbn [frames categories transactions shared_transactions transaction_splits
         membership friendship].
    rewrite (filter_all _ (frames (markNotGhost gid index db))).
    + rewrite (filter_all _ (categories (markNotGhost gid index db))).
      * reflexivity.
      * intros r Hr. now rewrite (Hc r Hr).
    + intros r Hr. now rewrite (Hf r Hr).
  - intros r Hin Hg Hi. specialize (Hf r Hin).
    apply String.eqb_eq in Hg. apply Z.eqb_eq in Hi. rewrite Hg, Hi in Hf. exact Hf.
  - intros r Hin Hg Hi. specialize (Hc r Hin).
    apply String.eqb_eq in Hg. apply Z.eqb_eq in Hi. rewrite Hg, Hi in Hc. exact Hc.
  - apply markNotGhost_keeps_balance.
  - apply markNotGhost_keeps_balance.
Qed.

Section GhostSynthesis.
Context {B : Backend}.

(** A frame that comes back as a ghost was synthesized: no persisted row was
    found for it. *)
Lemma ghost_means_absent (gid : Id) (index : FrameIndex) (db db' : Db) (frame : Frame) :
  getOrCreateFrame gid index db = Resolved frame db' ->
  f_ghost frame = true ->
  select_where
    (fun r => (fr_gid r =? gid)%string && (fr_index r =? index) && negb (fr_ghost r))
    (frames db) = [].
Proof.
  unfold getOrCreateFrame, getOrCreateFrameInner, select_where.
  destruct (filter _ (frames db)) as [|row [|row' rows]] eqn:E; cbn [oneOrNone];
    intros H Hghost.
  - reflexivity.
  - inversion H; subst frame. cbn in Hghost.
    assert (Hrow : In row (filter
                      (fun r => (fr_gid r =? gid)%string && (fr_index r =? index)
                                && negb (fr_ghost r)) (frames db)))
      by (rewrite E; now left).
    apply filter_In in Hrow as [_ Hrow]. rewrite Hghost in Hrow.
    now rewrite andb_false_r in Hrow.
  - discriminate.
Qed.

(** The categories of a synthesized frame belong to the group and the
    frame. *)
Lemma ghost_categories_here (gid : Id) (index : FrameIndex) (db : Db) :
  Forall (fun c => c_gid c = gid /\ c_frame c = index)
    match getPreviousFrame gid index db with
    | Some prevFrame => map (set_c_frame index) (getCategories gid (f_index prevFrame) db)
    | None => default_categories gid index db 0 DEFAULT_CATEGORIES
    end.
Proof.
  destruct (getPreviousFrame gid index db) as [prev|].
  - apply Forall_forall. intros c Hc. apply in_map_iff in Hc as [c0 [<- Hc0]].
    apply getCategories_rows in Hc0 as [row [_ [-> [Hg _]]]].
    split; [exact Hg | reflexivity].
  - destruct (default_categories_seeded gid index db 0 DEFAULT_CATEGORIES) as [_ [H _]].
    eapply Forall_impl; [|exact H]. intros c (_ & Hf & Hg & _). now split.
Qed.

Lemma ghost_category_rows_deleted (gid : Id) (index : FrameIndex) (cats : list Category) :
  Forall (fun c => c_gid c = gid /\ c_frame c = index) cats ->
  filter (fun r => negb ((cr_gid r =? gid)%string && (cr_frame r =? index) && cr_ghost r))
         (map category_row cats) = [].
Proof.
  intros H. apply filter_none. intros r Hr.
  apply in_map_iff in Hr as [c [<- Hc]].
  rewrite Forall_forall in H. destruct (H c Hc) as [Hg Hi].
  cbn [category_row cr_gid cr_frame cr_ghost]. rewrite Hg, Hi.
  now rewrite String.eqb_refl, Z.eqb_refl.
Qed.

(** The store that a synthesis saves, with the ghost deleted again, is the
    store the synthesis started from with its ghost deleted. *)
Lemma saved_then_deleted (gid : Id) (index : FrameIndex) (db : Db)
    (income : String.string) (cats : list Category) :
  Forall (fun c => c_gid c = gid /\ c_frame c = index) cats ->
  deleteGhost gid index
    (mkDb (transactions db) (shared_transactions db) (transaction_splits db)
          (frames (deleteGhost gid index db) ++ [mkFrameRow gid index income true])
          (categories (deleteGhost gid index db) ++ map category_row cats)
          (membership db) (friendship db))
  = deleteGhost gid index db.
Proof.
  intros Hcats.
  unfold deleteGhost, with_frames, with_categories, delete_where.
  cbn [frames categories transactions shared_transactions transaction_splits
       membership friendship].
  rewrite !filter_app, !filter_idem, (ghost_category_rows_deleted gid index cats Hcats).
  cbn [filter fr_gid fr_index fr_ghost].
  rewrite String.eqb_refl, Z.eqb_refl. cbn [andb negb].
  now rewrite !app_nil_r.
Qed.

(** The store that a synthesis saves holds no persisted row for the frame. *)
Lemma saved_still_absent (gid : Id) (index : FrameIndex) (db : Db) (income : String.string) :
  select_where
    (fun r => (fr_gid r =? gid)%string && (fr_index r =? index) && negb (fr_ghost r))
    (frames db) = [] ->
  select_where
    (fun r => (fr_gid r =? gid)%string && (fr_index r =? index) && negb (fr_ghost r))
    (frames (deleteGhost gid index db) ++ [mkFrameRow gid index income true]) = [].
Proof.
  intros Hnone. unfold select_where in *. rewrite filter_app.
  cbn [filter fr_gid fr_index fr_ghost negb]. rewrite andb_false_r.
  rewrite app_nil_r. apply filter_none. intros r Hr.
  apply deleteGhost_frames in Hr as [Hr _].
  exact (filter_empty_In _ (frames db) r Hnone Hr).
Qed.

(** X6. Synthesizing a ghost frame twice is synthesizing it once: the second
    request deletes the ghost rows that the first one saved and starts from
    the same store; when the frame has a predecessor, so that no identifier
    is drawn, it answers the same frame and saves the same store. *)
Theorem ghost_synthesis_idempotent (gid : Id) (index : FrameIndex) (db db' : Db)
    (frame : Frame) :
  getOrCreateFrame gid index db = Resolved frame db' ->
  f_ghost frame = true ->
  deleteGhost gid index db' = deleteGhost gid index db
  /\ (getPreviousFrame gid index (deleteGhost gid index db) <> None ->
      getOrCreateFrame gid index db' = Resolved frame db').
Proof.
  intros H Hghost.
  pose proof (ghost_means_absent gid index db db' frame H Hghost) as Hnone.
  rewrite (getOrCreateFrame_absent gid index db Hnone) in H. cbv zeta in H.
  pose proof (ghost_categories_here gid index (deleteGhost gid index db)) as Hcats.
  pose proof (f_equal (committed db) H) as Hdb. cbn [committed] in Hdb.
  pose proof (f_equal (fun o => match o with Resolved f _ => f | Rejected => frame end) H)
    as Hframe.
  cbv beta iota in Hframe. clear H. subst db'.
  split; [now apply saved_then_deleted|]. intros _.
  rewrite getOrCreateFrame_absent by (exact (saved_still_absent gid index db _ Hnone)).
  cbv zeta. rewrite (saved_then_deleted gid index db _ _ Hcats).
  rewrite Hframe. reflexivity.
Qed.

End GhostSynthesis.

Lemma ghost_synthesis_idempotent_witness :
  getOrCreateFrame (B := model) "g-alice" 1
    (committed food_db (getOrCreateFrame (B := model) "g-alice" 1 food_db))
  = getOrCreateFrame (B := model) "g-alice" 1 food_db.
Proof.
  destruct (ghost_synthesis_idempotent (B := model) "g-alice" 1 food_db _ _ eq_refl eq_refl)
    as [_ H].
  apply H. discriminate.
Defined.

Section GhostReadBack.
Context {B : Backend}.

(** The balance through a frame once a row of the frame has been added to
    [frames]. *)
Lemma getBalance_frame_added (gid : Id) (index : FrameIndex) (db db' : Db)
    (income : String.string) (ghost : bool) :
  transactions db' = transactions db ->
  frames db' = (frames db ++ [mkFrameRow gid index income ghost])%list ->
  getBalance gid index db'
  = Money.plus (getBalance gid index db) (Money.ofString income).
Proof.
  intros Ht Hf. unfold getBalance, select_where. rewrite Ht, Hf.
  rewrite filter_app, map_app, sum_app.
  cbn [filter fr_gid fr_index fr_income].
  rewrite String.eqb_refl, Z.leb_refl. cbn [andb map].
  rewrite sum_one. apply minus_plus_l.
Qed.

(** X7. A synthesized frame that is marked not ghost is read back as it was
    synthesized: the next request finds the one persisted row, writes
    nothing, and answers the frame with the same income, balance and
    spending, no longer a ghost, its categories those that [getCategories]
    computes for the frame itself. *)
Theorem marked_ghost_is_read_back (gid : Id) (index : FrameIndex) (db db' : Db)
    (frame : Frame) :
  getOrCreateFrame gid index db = Resolved frame db' ->
  f_ghost frame = true ->
  exists frame',
    getOrCreateFrame gid index (markNotGhost gid index db')
    = Resolved frame' (markNotGhost gid index db')
    /\ f_ghost frame' = false
    /\ f_gid frame' = gid
    /\ f_index frame' = index
    /\ f_income frame' = f_income frame
    /\ f_balance frame' = f_balance frame
    /\ f_spending frame' = f_spending frame
    /\ f_categories frame' = getCategories gid index (markNotGhost gid index db').
Proof.
  intros H Hghost.
  pose proof (ghost_means_absent gid index db db' frame H Hghost) as Hnone.
  rewrite (getOrCreateFrame_absent gid index db Hnone) in H. cbv zeta in H.
  pose proof (f_equal (committed db) H) as Hdb. cbn [committed] in Hdb.
  pose proof (f_equal (fun o => match o with Resolved f _ => f | Rejected => frame end) H)
    as Hframe.
  cbv beta iota in Hframe. clear H.
  set (income := match getPreviousFrame gid index (deleteGhost gid index db) with
                 | Some prevFrame => f_income prevFrame
                 | None => Money.Zero
                 end) in *.
  set (saved := mkFrameRow gid index (Money.string income) false).
  assert (Hsel : select_where
            (fun r => (fr_gid r =? gid)%string && (fr_index r =? index) && negb (fr_ghost r))
            (frames (markNotGhost gid index db')) = [saved]).
  { rewrite <- Hdb. cbn [markNotGhost with_frames with_categories frames].
    unfold select_where, update_where. rewrite map_app, filter_app.
    cbn [map filter fr_gid fr_index fr_income fr_ghost].
    rewrite String.eqb_refl, Z.eqb_refl. cbn [andb negb fr_gid fr_index fr_ghost].
    rewrite String.eqb_refl, Z.eqb_refl. cbn [andb].
    rewrite filter_none; [reflexivity|].
    intros r Hr. apply in_map_iff in Hr as [r0 [<- Hr0]].
    apply deleteGhost_frames in Hr0 as [Hr0 Hnot].
    pose proof (filter_empty_In _ (frames db) r0 Hnone Hr0) as Hp.
    cbv beta in Hp.
    destruct ((fr_gid r0 =? gid)%string && (fr_index r0 =? index)) eqn:Eq.
    - exfalso. apply Hnot. apply andb_prop in Eq as [Hg Hi].
      apply String.eqb_eq in Hg. apply Z.eqb_eq in Hi.
      destruct (fr_ghost r0); [now repeat split | discriminate Hp].
    - now rewrite Eq. }
  unfold getOrCreateFrame, getOrCreateFrameInner. rewrite Hsel. cbn [oneOrNone].
  eexists. split; [reflexivity|].
  cbn [set_f_spending set_f_balance set_f_categories frame_of_row saved
       f_ghost f_gid f_index f_income f_balance f_spending f_categories
       fr_gid fr_index fr_income fr_ghost].
  rewrite <- Hframe. cbn [f_income f_balance f_spending].
  repeat split.
  - apply ofString_string.
  - destruct (markNotGhost_keeps_balance gid index db') as [Hb _]. rewrite Hb.
    rewrite (getBalance_frame_added gid index (deleteGhost gid index db) db'
               (Money.string income) true)
      by (rewrite <- Hdb; reflexivity).
    rewrite ofString_string. subst income.
    destruct (getPreviousFrame gid index (deleteGhost gid index db)).
    + reflexivity.
    + now rewrite plus_Zero_r.
  - destruct (markNotGhost_keeps_balance gid index db') as [_ Hs]. rewrite Hs.
    now rewrite <- Hdb.
Qed.

End GhostReadBack.

Lemma marked_ghost_is_read_back_witness :
  exists frame',
    getOrCreateFrame (B := model) "g-alice" 1
      (markNotGhost "g-alice" 1
         (committed food_db (getOrCreateFrame (B := model) "g-alice" 1 food_db)))
    = Resolved frame'
        (markNotGhost "g-alice" 1
           (committed food_db (getOrCreateFrame (B := model) "g-alice" 1 food_db)))
    /\ f_ghost frame' = false
    /\ f_income frame' = Money.ofString "100"
    /\ f_balance frame' = Money.ofString "170".
Proof.
  destruct (marked_ghost_is_read_back (B := model) "g-alice" 1 food_db _ _ eq_refl eq_refl)
    as [frame' [Hread [Hghost [_ [_ [Hincome [Hbalance _]]]]]]].
  exists frame'. repeat split; assumption.
Defined.

Section GhostKeeps.
Context {B : Backend}.

(** X8. [getOrCreateFrame] never deletes what is persisted: whenever it
    resolves, the frame had at most one persisted row, the tables of
    transactions and splits are what they were, and every row of [frames]
    and of [categories] that is not a ghost row of the frame asked for is
    still there; the frame answered is the one asked for. *)
Theorem getOrCreateFrame_keeps_persisted (gid : Id) (index : FrameIndex) (db : Db) :
  match getOrCreateFrame gid index db with
  | Resolved frame db' =>
      Nat.le
        (List.length
           (select_where
              (fun r => (fr_gid r =? gid)%string && (fr_index r =? index)
                        && negb (fr_ghost r))
              (frames db))) 1
      /\ f_gid frame = gid
      /\ f_index frame = index
      /\ transactions db' = transactions db
      /\ shared_transactions db' = shared_transactions db
      /\ transaction_splits db' = transaction_splits db
      /\ (forall r, In r (frames db) ->
                    ~ (fr_gid r = gid /\ fr_index r = index /\ fr_ghost r = true) ->
                    In r (frames db'))
      /\ (forall r, In r (categories db) ->
                    ~ (cr_gid r = gid /\ cr_frame r = index /\ cr_ghost r = true) ->
                    In r (categories db'))
  | Rejected => True
  end.
Proof.
  destruct (select_where
              (fun r => (fr_gid r =? gid)%string && (fr_index r =? index) && negb (fr_ghost r))
              (frames db)) as [|row [|row' rows]] eqn:E.
  - rewrite (getOrCreateFrame_absent gid index db E). cbv zeta.
    cbn [f_gid f_index transactions shared_transactions transaction_splits frames categories
         List.length].
    repeat split.
    + apply Nat.le_0_l.
    + intros r Hin Hnot. apply in_or_app. left. now apply deleteGhost_frames.
    + intros r Hin Hnot. apply in_or_app. left. now apply deleteGhost_categories.
  - unfold getOrCreateFrame, getOrCreateFrameInner. rewrite E. cbn [oneOrNone].
    assert (Hrow : In row (select_where
                      (fun r => (fr_gid r =? gid)%string && (fr_index r =? index)
                                && negb (fr_ghost r)) (frames db)))
      by (rewrite E; now left).
    apply filter_In in Hrow as [_ Hrow].
    apply andb_prop in Hrow as [Hrow _]. apply andb_prop in Hrow as [Hg Hi].
    apply String.eqb_eq in Hg. apply Z.eqb_eq in Hi.
    cbn. repeat split; auto.
  - unfold getOrCreateFrame, getOrCreateFrameInner. rewrite E. cbn [oneOrNone].
    exact I.
Qed.

End GhostKeeps.

(** ** Creating transactions *)

Section Creation.
Context {B : Backend}.

(** The request with its split left out. *)
Lemma post_without_counterparty (request : AddTransactionRequest) (actor : User) (db : Db) :
  Money.isValid false (atr_amount request) = true ->
  split_rejected request = false ->
  match atr_split request with
  | Some rsplit => truthy (sr_with rsplit) = false
  | None => True
  end ->
  handle_transaction_post request actor db
  = Resolved
      (inl {| t_id := randomId 0;
              t_gid := getDefaultGroup actor db;
              t_frame := atr_frame request;
              t_category := atr_category request;
              t_amount := atr_amount request;
              t_description := atr_description request;
              t_alive := true;
              t_date := atr_date request;
              t_split := None |})
      (with_transactions
         (insert_row
            (transaction_row (randomId 0) (getDefaultGroup actor db) (atr_frame request)
               (Money.string (atr_amount request)) (atr_description request)
               (or_null (atr_category request)) (atr_date request))) db).
Proof.
  intros Hvalid Hok Hwith. unfold handle_transaction_post.
  rewrite Hvalid, Hok. cbn [negb].
  destruct (atr_split request) as [rsplit|]; [rewrite Hwith|]; reflexivity.
Qed.

(** X12. [handle_transaction_post] writes only when it answers a
    transaction: every other answer is 400 with the store as it was.  A
    transaction is answered only for a valid
    non-negative amount and a split that passed the validation; it is alive,
    carries the first identifier drawn and the caller's default group, and
    has a split only when the counterparty is a friend. *)
Theorem post_answers (request : AddTransactionRequest) (actor : User) (db : Db) :
  match handle_transaction_post request actor db with
  | Resolved (inl tx) db' =>
      Money.isValid false (atr_amount request) = true
      /\ split_rejected request = false
      /\ t_id tx = randomId 0
      /\ t_gid tx = getDefaultGroup actor db
      /\ t_amount tx = atr_amount request
      /\ t_alive tx = true
      /\ (t_split tx <> None ->
          exists rsplit, atr_split request = Some rsplit
                         /\ truthy (sr_with rsplit) = true
                         /\ isFriend (uid actor) (sr_with rsplit) db = true)
  | Resolved (inr status) db' => status = 400 /\ db' = db
  | Rejected => True
  end.
Proof.
  unfold handle_transaction_post.
  destruct (Money.isValid false (atr_amount request)); cbn [negb]; [|now split].
  destruct (split_rejected request); [now split|].
  destruct (atr_split request) as [rsplit|].
  - destruct (truthy (sr_with rsplit)) eqn:Hwith.
    + destruct (isFriend (uid actor) (sr_with rsplit) db) eqn:Hfriend; cbn [negb];
        [|now split].
      repeat split. intros _. now exists rsplit.
    + repeat split. intros H. now elim H.
  - repeat split. intros H. now elim H.
Qed.

(** X13. A transaction posted without a counterparty is one more row of
    [transactions], and the aggregates of [frames.ts] follow it: the spending
    of its frame in the caller's group grows by the amount, and the balance
    through every frame from its own on falls by the amount, while the
    balance through earlier frames is what it was. *)
Theorem post_moves_spending_and_balance
    (request : AddTransactionRequest) (actor : User) (db : Db) :
  Money.isValid false (atr_amount request) = true ->
  split_rejected request = false ->
  match atr_split request with
  | Some rsplit => truthy (sr_with rsplit) = false
  | None => True
  end ->
  exists tx db',
    handle_transaction_post request actor db = Resolved (inl tx) db'
    /\ t_split tx = None
    /\ List.length (transactions db') = S (List.length (transactions db))
    /\ frames db' = frames db
    /\ getSpending (t_gid tx) (atr_frame request) db'
       = Money.plus (getSpending (t_gid tx) (atr_frame request) db) (atr_amount request)
    /\ (forall i, atr_frame request <= i ->
                  getBalance (t_gid tx) i db'
                  = Money.minus (getBalance (t_gid tx) i db) (atr_amount request))
    /\ (forall i, i < atr_frame request ->
                  getBalance (t_gid tx) i db' = getBalance (t_gid tx) i db).
Proof.
  intros Hvalid Hok Hwith.
  rewrite (post_without_counterparty request actor db Hvalid Hok Hwith).
  eexists. eexists. split; [reflexivity|].
  cbn [t_split t_gid with_transactions transactions frames].
  split; [reflexivity|]. split.
  { unfold insert_row. rewrite length_app. cbn [List.length]. lia. }
  split; [reflexivity|].
  unfold getSpending, getBalance, select_where, insert_row.
  cbn [with_transactions transactions frames].
  repeat split.
  - rewrite filter_app, map_app, sum_app.
    cbn [filter transaction_row tr_gid tr_frame tr_alive tr_amount].
    rewrite String.eqb_refl, Z.eqb_refl.
    cbn [andb map Money.ofColumn transaction_row tr_amount].
    now rewrite sum_one, ofString_string.
  - intros i Hi. rewrite filter_app, map_app, sum_app.
    cbn [filter transaction_row tr_gid tr_frame tr_alive tr_amount].
    rewrite String.eqb_refl. apply Z.leb_le in Hi. rewrite Hi.
    cbn [andb map Money.ofColumn transaction_row tr_amount].
    rewrite sum_one, ofString_string. apply minus_plus_r.
  - intros i Hi. rewrite filter_app.
    cbn [filter transaction_row tr_gid tr_frame tr_alive tr_amount].
    apply Z.leb_gt in Hi. rewrite Hi, andb_false_r. cbn [andb].
    now rewrite app_nil_r.
Qed.

(** X14. A split that names no counterparty is validated all the same, and
    a request that passes is stored as if it had no split: the handler
    answers what it answers for the request without the split, and no row is
    added to [shared_transactions] or [transaction_splits]. *)
Theorem post_split_without_counterparty
    (request : AddTransactionRequest) (rsplit : SplitRequest) (actor : User) (db : Db) :
  atr_split request = Some rsplit ->
  sr_with rsplit = "" ->
  (split_rejected request = true ->
   handle_transaction_post request actor db = Resolved (inr 400) db)
  /\ (split_rejected request = false ->
      handle_transaction_post request actor db
      = handle_transaction_post
          (mkAddTransactionRequest (atr_frame request) (atr_amount request)
             (atr_description request) (atr_category request) (atr_date request) None)
          actor db
      /\ shared_transactions (committed db (handle_transaction_post request actor db))
         = shared_transactions db
      /\ transaction_splits (committed db (handle_transaction_post request actor db))
         = transaction_splits db).
Proof.
  intros Hsplit Hwith. split.
  - apply post_rejects_split.
  - intros Hok. unfold handle_transaction_post.
    rewrite Hok, Hsplit, Hwith.
    cbn [atr_amount atr_split atr_frame atr_description atr_category atr_date
         split_rejected truthy String.eqb negb].
    destruct (Money.isValid false (atr_amount request)); cbn [negb committed];
      repeat split.
Qed.

End Creation.

Lemma post_moves_spending_and_balance_witness :
  exists tx db',
    handle_transaction_post (B := model) (add_request (Money.ofString "8.50") None)
      alice sample_db = Resolved (inl tx) db'
    /\ getSpending "g-alice" 0 db'
       = Money.plus (getSpending "g-alice" 0 sample_db) (Money.ofString "8.50")
    /\ getBalance "g-alice" 3 db'
       = Money.minus (getBalance "g-alice" 3 sample_db) (Money.ofString "8.50").
Proof.
  destruct (post_moves_spending_and_balance (B := model)
              (add_request (Money.ofString "8.50") None) alice sample_db
              eq_refl eq_refl I)
    as [tx [db' [Hpost [_ [_ [_ [Hspending [Hbalance _]]]]]]]].
  exists tx, db'.
  assert (Hgid : t_gid tx = "g-alice") by (inversion Hpost; reflexivity).
  rewrite Hgid in *.
  split; [exact Hpost|]. split; [exact Hspending|].
  apply Hbalance. cbn. lia.
Defined.

Lemma post_split_without_counterparty_witness :
  handle_transaction_post (B := model)
    (add_request (Money.ofString "60")
       (Some (mkSplitRequest "" true (Money.ofString "40") (Money.ofString "60")
                             (Money.ofString "40"))))
    alice sample_db
  = handle_transaction_post (B := model) (add_request (Money.ofString "60") None)
      alice sample_db.
Proof.
  apply (proj2 (post_split_without_counterparty (B := model)
                  (add_request (Money.ofString "60")
                     (Some (mkSplitRequest "" true (Money.ofString "40") (Money.ofString "60")
                                           (Money.ofString "40"))))
                  _ alice sample_db eq_refl eq_refl)).
  reflexivity.
Defined.

Section SplitCreation.
Context {B : Backend}.

(** X15. When [handle_transaction_post] creates a split, the bookkeeping
    rows follow the ledger update: one row of [shared_transactions] with the
    split's identifier and payer, and two rows of [transaction_splits], the
    caller's share for the primary transaction and the counterparty's share
    for the mirrored one.  The payer is the caller when [iPaid] is set and
    the counterparty otherwise.  The row is saved as settled, while the
    split of the transaction answered is not settled. *)
Theorem post_split_bookkeeping
    (request : AddTransactionRequest) (actor : User) (db db' : Db) (tx : Transaction)
    (split : Split) :
  handle_transaction_post request actor db = Resolved (inl tx) db' ->
  t_split tx = Some split ->
  exists rsplit,
    atr_split request = Some rsplit
    /\ split_id split = randomId 2
    /\ split_payer split
       = Some (if sr_iPaid rsplit then uid actor else sr_with rsplit)
    /\ split_settled split = false
    /\ (let primary :=
          with_transactions
            (insert_row
               (transaction_row (randomId 0) (getDefaultGroup actor db) (atr_frame request)
                  (Money.string (atr_amount request)) (atr_description request)
                  (or_null (atr_category request)) (atr_date request))) db in
        let ledger :=
          addToBalance (uid actor) (sr_with rsplit)
            (transactions_getBalance (uid actor) (sr_with rsplit) (atr_amount request)
               (sr_otherAmount rsplit) (split_payer split))
            primary in
        shared_transactions db'
        = (shared_transactions ledger
             ++ [mkSharedTransactionRow (split_id split) (split_payer split) true])%list
        /\ transaction_splits db'
           = (transaction_splits ledger
                ++ [mkTransactionSplitRow (t_id tx) (split_id split)
                      (Money.string (sr_myShare rsplit));
                    mkTransactionSplitRow (randomId 1) (split_id split)
                      (Money.string (sr_theirShare rsplit))])%list).
Proof.
  unfold handle_transaction_post. intros H Hsplit.
  destruct (Money.isValid false (atr_amount request)); [|discriminate].
  destruct (split_rejected request); [discriminate|].
  cbn [negb] in H.
  destruct (atr_split request) as [rsplit|].
  - destruct (truthy (sr_with rsplit)).
    + destruct (isFriend (uid actor) (sr_with rsplit) db); [|discriminate].
      cbn [negb] in H. inversion H; subst; clear H.
      cbn [t_split] in Hsplit. inversion Hsplit; subst; clear Hsplit.
      exists rsplit. cbn [split_id split_payer split_settled t_id option_map].
      split; [reflexivity|]. split; [reflexivity|].
      split; [now destruct (sr_iPaid rsplit)|]. split; [reflexivity|].
      cbv zeta. unfold insert_row.
      cbn [with_transaction_splits with_shared_transactions with_transactions
           shared_transactions transaction_splits].
      split; [reflexivity|]. now rewrite <- app_assoc.
    + inversion H; subst. discriminate.
  - inversion H; subst. discriminate.
Qed.

End SplitCreation.

Lemma post_split_bookkeeping_witness :
  exists db' tx split,
    handle_transaction_post (B := model)
      (add_request (Money.ofString "60") (Some split_60_40)) alice sample_db
    = Resolved (inl tx) db'
    /\ t_split tx = Some split
    /\ split_payer split = Some "alice"
    /\ split_settled split = false
    /\ map st_settled (shared_transactions db') = [true; true].
Proof.
  eexists. eexists. eexists.
  split; [reflexivity|]. split; [reflexivity|].
  destruct (post_split_bookkeeping (B := model)
              (add_request (Money.ofString "60") (Some split_60_40)) alice sample_db
              _ _ _ eq_refl eq_refl)
    as [rsplit [Hreq [_ [Hpayer [Hsettled [Hshared _]]]]]].
  inversion Hreq; subst rsplit.
  split; [exact Hpayer|]. split; [exact Hsettled|].
  rewrite Hshared. reflexivity.
Defined.

(** ** Updating transactions *)

Section UpdateFrame.
Context {B : Backend}.

(** The statement [update transactions set field = $1 where id = $2] adds
    and deletes no row, and changes no column but the one named. *)
Lemma update_field_frame (field : txField) (val : option String.string) (id : Id) (db : Db) :
  map (fun r => (tr_id r, tr_gid r, tr_frame r, tr_alive r))
      (transactions (update_transaction_field field val id db))
  = map (fun r => (tr_id r, tr_gid r, tr_frame r, tr_alive r)) (transactions db)
  /\ (forall other, other <> field ->
        map (get_field other) (transactions (update_transaction_field field val id db))
        = map (get_field other) (transactions db)).
Proof.
  cbn [update_transaction_field with_transactions transactions]. unfold update_where.
  split.
  - rewrite map_map. apply map_ext. intros r.
    destruct (tr_id r =? id)%string; [|reflexivity]. now destruct field.
  - intros other Hother. rewrite map_map. apply map_ext. intros r.
    destruct (tr_id r =? id)%string; [|reflexivity].
    destruct field, other; try reflexivity; now elim Hother.
Qed.

(** X16. The generic update answers 204, 400 or 401, or rejects; it changes
    the store only when it answers 204, and then it writes one column of
    [transactions] and nothing else: no row is added or deleted, the
    identifier, group, frame and alive flag of every row and the other three
    columns are what they were, and so are the other tables. *)
Theorem update_post_writes_one_column {V : Type} (as_string : V -> option String.string)
    (field : txField) (id : Id) (value : V) (actor : User)
    (isValid : option (V -> bool)) (transform : option (V -> option String.string))
    (db : Db) :
  match handle_transaction_update_post as_string field id value actor isValid transform db with
  | Resolved status db' =>
      (status = 204 \/ ((status = 400 \/ status = 401) /\ db' = db))
      /\ map (fun r => (tr_id r, tr_gid r, tr_frame r, tr_alive r)) (transactions db')
         = map (fun r => (tr_id r, tr_gid r, tr_frame r, tr_alive r)) (transactions db)
      /\ (forall other, other <> field ->
            map (get_field other) (transactions db') = map (get_field other) (transactions db))
      /\ shared_transactions db' = shared_transactions db
      /\ transaction_splits db' = transaction_splits db
      /\ frames db' = frames db
      /\ categories db' = categories db
  | Rejected => True
  end.
Proof.
  unfold handle_transaction_update_post.
  destruct (match transform with
            | Some f => Some f
            | None => match as_string value with
                      | Some _ => Some as_string
                      | None => None
                      end
            end) as [tr|]; [|exact I].
  destruct (negb _); [now repeat split; auto|].
  destruct (getTransaction id db) as [existing|]; [|exact I].
  destruct (negb _); [now repeat split; auto|].
  destruct (is_some (t_split existing) && negb (canEditShared field));
    [now repeat split; auto|].
  set (db1 := update_transaction_field field (tr value) id db).
  destruct (update_field_frame field (tr value) id db) as [Hkey Hother].
  fold db1 in Hkey, Hother.
  destruct (t_split existing) as [split|]; [destruct (isSharedField field)|].
  - destruct (update_field_frame field (tr value) (getOtherTid id (split_id split) db1) db1)
      as [Hkey' Hother'].
    split; [now left|]. split; [now rewrite Hkey', Hkey|].
    split; [intros other Hne; now rewrite Hother', Hother|].
    repeat split.
  - split; [now left|]. repeat split; assumption.
  - split; [now left|]. repeat split; assumption.
Qed.



End UpdateFrame.



(** ** The answers of [handle_transaction_split_post] *)

(** X19. [handle_transaction_split_post] answers 400, with the store as it
    was, exactly when the total or one of the shares is not a valid
    non-negative monetary value or [tid] or [sid] is empty; whenever it
    resolves, the answer is 400 or 204. *)
Theorem split_post_answers {B : Backend}
    (request : TransactionSplitRequest) (actor : User) (db : Db) :
  (handle_transaction_split_post request actor db = Resolved 400 db
   <-> (Money.isValid false (tsr_total request) = false
        \/ Money.isValid false (tsr_myShare request) = false
        \/ Money.isValid false (tsr_theirShare request) = false
        \/ tsr_tid request = ""
        \/ tsr_sid request = ""))
  /\ match handle_transaction_split_post request actor db with
     | Resolved status _ => status = 400 \/ status = 204
     | Rejected => True
     end.
Proof.
  unfold handle_transaction_split_post, truthy.
  destruct (Money.isValid false (tsr_total request));
    destruct (Money.isValid false (tsr_myShare request));
    destruct (Money.isValid false (tsr_theirShare request));
    destruct (String.eqb_spec (tsr_tid request) "") as [Htid | Htid];
    destruct (String.eqb_spec (tsr_sid request) "") as [Hsid | Hsid];
    cbn [negb orb];
    try (split; [split; [intros _; tauto | reflexivity] | now left]).
  destruct (distributeTotal _ _ _) as [myAmount otherAmount].
  split; [|now right].
  split; [discriminate|].
  intros [H | [H | [H | [H | H]]]]; try discriminate; contradiction.
Qed.

(** ** The friend handlers *)

Example friend_handlers_on_sample :
  handle_add_friend_post (U := sample_directory) (mkFriendRequest "carol@example.org")
    alice sample_db
  = Resolved (inr {| code := 404; message := "There is no user with that email" |}) sample_db
  /\ handle_friend_delete (U := sample_directory) (mkFriendRequest "nobody@example.org")
       alice sample_db
     = Resolved (inr {| code := 404; message := "There is no user with that email" |})
         sample_db
  /\ friendship
       (committed sample_db
          (handle_reject_friend_post (U := sample_directory)
             (mkFriendRequest "bob@example.org") alice sample_db))
     = [].
Proof. repeat split. Qed.

(** ** Frames in sequence *)

Section FrameSequence.
Context {B : Backend}.

Lemma filter_filter_implied {A : Type} (p q : A -> bool) (l : list A) :
  (forall x, p x = true -> q x = true) ->
  filter p (filter q l) = filter p l.
Proof.
  intros H. induction l as [|x l IH]; [reflexivity|].
  cbn [filter]. destruct (q x) eqn:Hq.
  - cbn [filter]. now rewrite IH.
  - destruct (p x) eqn:Hp; [|exact IH].
    rewrite (H x Hp) in Hq. discriminate.
Qed.

(** Deleting the ghost of a frame does not change what comes before it. *)
Lemma getPreviousFrame_deleteGhost (gid : Id) (index : FrameIndex) (db : Db) :
  getPreviousFrame gid index (deleteGhost gid index db) = getPreviousFrame gid index db.
Proof.
  unfold getPreviousFrame, select_where.
  cbn [deleteGhost with_frames with_categories frames]. unfold delete_where.
  rewrite filter_filter_implied; [reflexivity|].
  intros r Hr. apply andb_prop in Hr as [_ Hi]. apply Z.ltb_lt in Hi.
  destruct (Z.eqb_spec (fr_index r) index) as [E|E]; [lia|].
  now rewrite andb_false_r.
Qed.

(** The rows of the categories of a frame other than the one whose ghost is
    deleted are the same before and after. *)
Lemma category_rows_deleteGhost (gid : Id) (index previous : FrameIndex) (db : Db) :
  previous <> index ->
  select_where
    (fun r => (cr_gid r =? gid)%string && (cr_frame r =? previous) && cr_alive r)
    (categories (deleteGhost gid index db))
  = select_where
      (fun r => (cr_gid r =? gid)%string && (cr_frame r =? previous) && cr_alive r)
      (categories db).
Proof.
  intros Hne. unfold select_where.
  cbn [deleteGhost with_frames with_categories categories]. unfold delete_where.
  apply filter_filter_implied.
  intros r Hr. apply andb_prop in Hr as [Hr _]. apply andb_prop in Hr as [_ Hf].
  apply Z.eqb_eq in Hf.
  destruct (Z.eqb_spec (cr_frame r) index) as [E|E]; [lia|].
  now rewrite andb_false_r.
Qed.

(** After a synthesis the frame has one row, and the table before it none
    for the frame. *)
Lemma synthesized_store (gid : Id) (index : FrameIndex) (db db' : Db) (frame : Frame) :
  getOrCreateFrame gid index db = Resolved frame db' ->
  f_ghost frame = true ->
  transactions db' = transactions db
  /\ frames db'
     = (frames (deleteGhost gid index db)
          ++ [mkFrameRow gid index (Money.string (f_income frame)) true])%list
  /\ categories db'
     = (categories (deleteGhost gid index db) ++ map category_row (f_categories frame))%list
  /\ (forall r, In r (frames (deleteGhost gid index db)) ->
                ~ (fr_gid r = gid /\ fr_index r = index)).
Proof.
  intros H Hghost.
  pose proof (ghost_means_absent gid index db db' frame H Hghost) as Hnone.
  rewrite (getOrCreateFrame_absent gid index db Hnone) in H. cbv zeta in H.
  pose proof (f_equal (committed db) H) as Hdb. cbn [committed] in Hdb.
  pose proof (f_equal (fun o => match o with Resolved f _ => f | Rejected => frame end) H)
    as Hframe.
  cbv beta iota in Hframe. clear H.
  rewrite <- Hdb, <- Hframe. cbn [transactions frames categories f_income f_categories].
  repeat split.
  intros r Hr [Hg Hi]. apply deleteGhost_frames in Hr as [Hr Hnot].
  pose proof (filter_empty_In _ (frames db) r Hnone Hr) as Hp. cbv beta in Hp.
  apply String.eqb_eq in Hg. apply Z.eqb_eq in Hi. rewrite Hg, Hi in Hp.
  apply Hnot. apply String.eqb_eq in Hg. apply Z.eqb_eq in Hi.
  destruct (fr_ghost r); [now repeat split | discriminate Hp].
Qed.

Lemma previous_of_next (gid : Id) (index : FrameIndex) (db : Db)
    (table : list FrameRow) (income : String.string) :
  frames db = (table ++ [mkFrameRow gid index income true])%list ->
  (forall r, In r table -> ~ (fr_gid r = gid /\ fr_index r = index)) ->
  exists prev,
    getPreviousFrame gid (index + 1) db = Some prev
    /\ f_index prev = index
    /\ f_income prev = Money.ofString income.
Proof.
  intros Hframes Htable.
  assert (Hlast : In (mkFrameRow gid index income true) (frames db))
    by (rewrite Hframes; apply in_or_app; right; now left).
  destruct (getPreviousFrame gid (index + 1) db) as [prev|] eqn:E.
  - exists prev. split; [reflexivity|].
    destruct (getPreviousFrame_nearest gid (index + 1) db prev E)
      as [Hg [Hi [[row [Hrow ->]] Hmax]]].
    specialize (Hmax _ Hlast eq_refl). cbn [fr_index frame_of_row f_index f_gid] in *.
    assert (Hidx : fr_index row = index) by lia.
    split; [exact Hidx|].
    rewrite Hframes in Hrow. apply in_app_or in Hrow as [Hrow | [<- | []]].
    + exfalso. now apply (Htable row Hrow).
    + reflexivity.
  - exfalso.
    apply (getPreviousFrame_none gid (index + 1) db E _ Hlast eq_refl).
    cbn [fr_index]. lia.
Qed.

(** X9. Income runs along a chain of ghost frames: when a frame has been
    synthesized and the next index has no persisted row, the frame
    synthesized for the next index has the income of the first. *)
Theorem next_ghost_inherits_income (gid : Id) (index : FrameIndex) (db db' : Db)
    (frame : Frame) :
  getOrCreateFrame gid index db = Resolved frame db' ->
  f_ghost frame = true ->
  select_where
    (fun r => (fr_gid r =? gid)%string && (fr_index r =? index + 1) && negb (fr_ghost r))
    (frames db) = [] ->
  exists next db'',
    getOrCreateFrame gid (index + 1) db' = Resolved next db''
    /\ f_ghost next = true
    /\ f_index next = index + 1
    /\ f_income next = f_income frame.
Proof.
  intros H Hghost Hnext.
  destruct (synthesized_store gid index db db' frame H Hghost)
    as [_ [Hframes [_ Htable]]].
  assert (Hnext' : select_where
            (fun r => (fr_gid r =? gid)%string && (fr_index r =? index + 1)
                      && negb (fr_ghost r))
            (frames db') = []).
  { rewrite Hframes. unfold select_where. rewrite filter_app.
    cbn [filter fr_gid fr_index fr_ghost negb]. rewrite andb_false_r, app_nil_r.
    apply filter_none. intros r Hr. apply deleteGhost_frames in Hr as [Hr _].
    exact (filter_empty_In _ (frames db) r Hnext Hr). }
  rewrite (getOrCreateFrame_absent gid (index + 1) db' Hnext'). cbv zeta.
  rewrite getPreviousFrame_deleteGhost.
  destruct (previous_of_next gid index db' _ _ Hframes Htable) as [prev [Hprev [_ Hincome]]].
  rewrite Hprev. eexists. eexists. split; [reflexivity|].
  cbn [f_ghost f_index f_income]. repeat split.
  rewrite Hincome. apply ofString_string.
Qed.

End FrameSequence.

Lemma next_ghost_inherits_income_witness :
  exists next db'',
    getOrCreateFrame (B := model) "g-alice" 2
      (committed food_db (getOrCreateFrame (B := model) "g-alice" 1 food_db))
    = Resolved next db''
    /\ f_ghost next = true
    /\ f_income next = Money.ofString "100".
Proof.
  destruct (next_ghost_inherits_income (B := model) "g-alice" 1 food_db _ _
              eq_refl eq_refl eq_refl)
    as [next [db'' [Hnext [Hghost [_ Hincome]]]]].
  exists next, db''. repeat split; assumption.
Defined.

(** ** What a synthesized frame holds *)

Section Synthesis.
Context {B : Backend}.

Lemma default_categories_ids (gid : Id) (index : FrameIndex) (db : Db)
    (i : nat) (names : list String.string) :
  map c_id (default_categories gid index db i names)
  = map randomId (seq i (List.length names)).
Proof.
  revert i. induction names as [|c names IH]; intros i; [reflexivity|].
  cbn [default_categories map List.length seq c_id]. now rewrite IH.
Qed.

(** What the categories carried forward share with the categories of the
    frame they come from. *)
Lemma carried_columns (gid : Id) (index previous : FrameIndex) (db : Db) :
  previous <> index ->
  map (fun c => (c_name c, c_budget c, c_id c, c_ordering c, c_gid c))
      (map (set_c_frame index) (getCategories gid previous (deleteGhost gid index db)))
  = map (fun c => (c_name c, c_budget c, c_id c, c_ordering c, c_gid c))
        (getCategories gid previous db).
Proof.
  intros Hne. rewrite !getCategories_unfold, category_rows_deleteGhost by exact Hne.
  rewrite !map_map. apply map_ext. reflexivity.
Qed.

(** X10. The first frame of a group: when the frame asked for has no
    persisted row and the group has no frame before it, the ghost frame has
    no income and one category for each default name, in the order of the
    names, with the orderings 0, 1, 2, ..., the identifiers drawn in that
    order and a zero budget; the rows saved for them hold the budget "0.00"
    and follow the rows that were there. *)
Theorem first_frame_gets_defaults (gid : Id) (index : FrameIndex) (db db' : Db)
    (frame : Frame) :
  getOrCreateFrame gid index db = Resolved frame db' ->
  f_ghost frame = true ->
  (forall r, In r (frames db) -> fr_gid r = gid -> ~ fr_index r < index) ->
  f_income frame = Money.Zero
  /\ map c_name (f_categories frame) = DEFAULT_CATEGORIES
  /\ map c_ordering (f_categories frame)
     = map Z.of_nat (seq 0 (List.length DEFAULT_CATEGORIES))
  /\ map c_id (f_categories frame) = map randomId (seq 0 (List.length DEFAULT_CATEGORIES))
  /\ Forall (fun c => c_budget c = Money.Zero /\ c_frame c = index /\ c_gid c = gid
                      /\ c_ghost c = true /\ c_alive c = true)
            (f_categories frame)
  /\ categories db'
     = (categories (deleteGhost gid index db) ++ map category_row (f_categories frame))%list
  /\ Forall (fun c => cr_budget (category_row c) = "0.00") (f_categories frame).
Proof.
  intros H Hghost Hfirst.
  destruct (synthesized_store gid index db db' frame H Hghost) as [_ [_ [Hcats _]]].
  pose proof (ghost_means_absent gid index db db' frame H Hghost) as Hnone.
  rewrite (getOrCreateFrame_absent gid index db Hnone) in H. cbv zeta in H.
  pose proof (f_equal (fun o => match o with Resolved f _ => f | Rejected => frame end) H)
    as Hframe.
  cbv beta iota in Hframe. clear H.
  assert (Hprev : getPreviousFrame gid index (deleteGhost gid index db) = None).
  { rewrite getPreviousFrame_deleteGhost.
    destruct (getPreviousFrame gid index db) as [prev|] eqn:E; [|reflexivity].
    destruct (getPreviousFrame_nearest gid index db prev E)
      as [Hg [Hi [[row [Hrow ->]] _]]].
    exfalso. exact (Hfirst row Hrow Hg Hi). }
  rewrite Hprev in Hframe.
  destruct (default_categories_seeded gid index (deleteGhost gid index db) 0
              DEFAULT_CATEGORIES) as [Hnames [Hall Hord]].
  rewrite <- Hframe in *. cbn [f_income f_categories] in *.
  split; [reflexivity|]. split; [exact Hnames|]. split; [exact Hord|].
  split; [apply default_categories_ids|]. split; [exact Hall|]. split; [exact Hcats|].
  eapply Forall_impl; [|exact Hall].
  intros c [Hbudget _]. cbn [category_row cr_budget]. now rewrite Hbudget.
Qed.

(** X11. A frame with a predecessor: when the frame asked for has no
    persisted row and the group has a frame before it, the ghost frame
    carries the income of the nearest one, its balance is the balance
    through the index plus that income, and its categories are the alive
    categories of that frame, in their order, with the same names, budgets,
    identifiers and orderings, pointing to the new frame; a row is saved for
    each of them. *)
Theorem later_frame_carries_forward (gid : Id) (index : FrameIndex) (db db' : Db)
    (frame : Frame) (prev : Frame) :
  getOrCreateFrame gid index db = Resolved frame db' ->
  f_ghost frame = true ->
  getPreviousFrame gid index db = Some prev ->
  f_income frame = f_income prev
  /\ f_index prev < index
  /\ (forall r, In r (frames db) -> fr_gid r = gid -> fr_index r < index ->
                fr_index r <= f_index prev)
  /\ f_balance frame
     = Money.plus (getBalance gid index (deleteGhost gid index db)) (f_income prev)
  /\ map (fun c => (c_name c, c_budget c, c_id c, c_ordering c, c_gid c))
         (f_categories frame)
     = map (fun c => (c_name c, c_budget c, c_id c, c_ordering c, c_gid c))
           (getCategories gid (f_index prev) db)
  /\ Forall (fun c => c_frame c = index) (f_categories frame)
  /\ categories db'
     = (categories (deleteGhost gid index db) ++ map category_row (f_categories frame))%list.
Proof.
  intros H Hghost Hprev.
  destruct (synthesized_store gid index db db' frame H Hghost) as [_ [_ [Hcats _]]].
  pose proof (ghost_means_absent gid index db db' frame H Hghost) as Hnone.
  rewrite (getOrCreateFrame_absent gid index db Hnone) in H. cbv zeta in H.
  pose proof (f_equal (fun o => match o with Resolved f _ => f | Rejected => frame end) H)
    as Hframe.
  cbv beta iota in Hframe. clear H.
  rewrite getPreviousFrame_deleteGhost, Hprev in Hframe.
  destruct (getPreviousFrame_nearest gid index db prev Hprev) as [_ [Hi [_ Hmax]]].
  rewrite <- Hframe in *. cbn [f_income f_balance f_categories] in *.
  split; [reflexivity|]. split; [exact Hi|]. split; [exact Hmax|].
  split; [reflexivity|]. split; [apply (carried_columns gid index (f_index prev) db); lia|].
  split; [|exact Hcats].
  apply Forall_forall. intros c Hc. apply in_map_iff in Hc as [c0 [<- _]]. reflexivity.
Qed.

End Synthesis.

Lemma first_frame_gets_defaults_witness :
  exists frame db',
    getOrCreateFrame (B := model) "g-bob" 0 sample_db = Resolved frame db'
    /\ f_income frame = Money.Zero
    /\ map c_name (f_categories frame) = ["Rent"; "Groceries"; "Savings"]
    /\ map c_ordering (f_categories frame) = [0; 1; 2].
Proof.
  eexists. eexists. split; [reflexivity|].
  destruct (first_frame_gets_defaults (B := model) "g-bob" 0 sample_db _ _ eq_refl eq_refl)
    as [Hincome [Hnames [Hord _]]].
  - intros r [<- | []]. discriminate.
  - repeat split; assumption.
Defined.

Lemma later_frame_carries_forward_witness :
  exists frame db',
    getOrCreateFrame (B := model) "g-alice" 1 food_db = Resolved frame db'
    /\ f_income frame = Money.ofString "100"
    /\ map c_name (f_categories frame) = ["Food"].
Proof.
  eexists. eexists. split; [reflexivity|].
  destruct (later_frame_carries_forward (B := model) "g-alice" 1 food_db _ _ _
              eq_refl eq_refl eq_refl)
    as [Hincome [_ [_ [_ [Hcols _]]]]].
  split; [exact Hincome|].
  apply (f_equal (map (fun x => fst (fst (fst (fst x)))))) in Hcols.
  rewrite !map_map in Hcols. exact Hcols.
Defined.
